(** * Measurement normalisation and CRUD aggregation of [pruebas.py]

    A shallow embedding of [parse_time_to_microseconds], [parse_memory] and
    [prepare_crud_comparison_data], together with the Python built-ins they
    call ([str.replace], the [in] test on strings, [float]).

    Conventions of the embedding:
    - a Python [str] is the [string] of its UTF-8 bytes; substring search
      and replacement of well-formed UTF-8 patterns act on the bytes as they
      act on the code points;
    - a Python [float] is a [spec_float] of IEEE binary64 (precision 53,
      [emax] 1024), with round-to-nearest-even arithmetic;
    - [float(s)] is modelled on ASCII text: CPython also reads the decimal
      digits and the white space of other scripts, which are rejected here;
    - a cell of a report is [None], NaN or text, as pandas gives them for a
      column of unit-suffixed measurements;
    - a call either returns or raises: [result]. *)

From Stdlib Require Import ZArith List Bool Ascii String Lia.
From Stdlib Require Import Floats.SpecFloat.
Import ListNotations.

Open Scope string_scope.

(** ** Python strings *)

Module PyStr.

(** [sub in s] *)
Fixpoint contains (sub s : string) : bool :=
  prefix sub s
  || match s with
     | EmptyString => false
     | String _ s' => contains sub s'
     end.

(** Left-to-right scan of [s.replace(old, new)] for a non-empty [old]:
    [skip] counts the characters of a match that are still to be dropped. *)
Fixpoint replace_scan (old new s : string) (skip : nat) : string :=
  match s with
  | EmptyString => EmptyString
  | String c s' =>
      match skip with
      | S k => replace_scan old new s' k
      | O =>
          if prefix old s
          then new ++ replace_scan old new s' (length old - 1)
          else String c (replace_scan old new s' 0)
      end
  end.

(** With an empty [old], Python puts [new] before every character and at
    the end. *)
Fixpoint intersperse (new s : string) : string :=
  match s with
  | EmptyString => new
  | String c s' => new ++ String c (intersperse new s')
  end.

(** [s.replace(old, new)] *)
Definition replace (old new s : string) : string :=
  match old with
  | EmptyString => intersperse new s
  | String _ _ => replace_scan old new s 0
  end.

(** The characters the two normalisers delete. *)
Definition comma : ascii := ascii_of_nat 44.
Definition dquote : ascii := ascii_of_nat 34.
Definition minus : ascii := ascii_of_nat 45.

Definition str1 (c : ascii) : string := String c EmptyString.

(** Deleting every occurrence of one character. *)
Fixpoint delete (c : ascii) (s : string) : string :=
  match s with
  | EmptyString => EmptyString
  | String a s' =>
      if Ascii.eqb c a then delete c s' else String a (delete c s')
  end.

(** Does the character occur in the string? *)
Fixpoint mem (c : ascii) (s : string) : bool :=
  match s with
  | EmptyString => false
  | String a s' => Ascii.eqb c a || mem c s'
  end.

End PyStr.

(** ** Python floats *)

Module PyFloat.

Local Open Scope list_scope.

Definition float := spec_float.

Definition prec : Z := 53.
Definition emax : Z := 1024.

Definition nan : float := S754_nan.
Definition inf (neg : bool) : float := S754_infinity neg.

(** [x * y] on floats *)
Definition mul (x y : float) : float := SFmul prec emax x y.

(** [x < y] on floats *)
Definition ltb (x y : float) : bool := SFltb x y.

(** Conversion of a Python [int] operand to a float, to nearest even. *)
Definition of_int (z : Z) : float := binary_normalize prec emax z 0 false.

(** The float nearest to [m * 10 ^ e], for a non-negative [m], with the
    sign [neg]; ties go to the even mantissa. *)
Definition of_decimal (neg : bool) (m e : Z) : float :=
  match m with
  | Zpos _ =>
      if (0 <=? e)%Z
      then binary_normalize prec emax (if neg then - (m * 10 ^ e) else m * 10 ^ e)%Z 0 neg
      else
        let '(q, e', l) := SFdiv_core_binary prec emax m 0 (10 ^ (- e))%Z 0 in
        binary_round_aux prec emax neg q e' l
  | _ => S754_zero neg
  end.

(** *** The text accepted by [float(s)] *)

Definition chr (n : nat) : ascii := ascii_of_nat n.

(** [Py_ISSPACE]: space, tab, line feed, vertical tab, form feed, return. *)
Definition is_space (c : ascii) : bool :=
  let n := nat_of_ascii c in
  (n =? 32)%nat || ((9 <=? n)%nat && (n <=? 13)%nat).

Definition is_digit (c : ascii) : bool :=
  let n := nat_of_ascii c in
  (48 <=? n)%nat && (n <=? 57)%nat.

Definition digit_val (c : ascii) : Z := Z.of_nat (nat_of_ascii c) - 48.

Definition lower (c : ascii) : ascii :=
  let n := nat_of_ascii c in
  if (65 <=? n)%nat && (n <=? 90)%nat then ascii_of_nat (n + 32) else c.

Definition is_char (n : nat) (c : ascii) : bool := (nat_of_ascii c =? n)%nat.

Definition is_underscore := is_char 95.
Definition is_plus := is_char 43.
Definition is_minus := is_char 45.
Definition is_dot := is_char 46.
Definition is_e (c : ascii) : bool := is_char 101 (lower c).

Fixpoint lstrip (l : list ascii) : list ascii :=
  match l with
  | c :: l' => if is_space c then lstrip l' else l
  | [] => []
  end.

Definition strip (l : list ascii) : list ascii :=
  rev (lstrip (rev (lstrip l))).

(** Underscores are accepted between two digits only, and dropped;
    [prev] is the character before the head of [l] (NUL at the start). *)
Fixpoint drop_underscores (prev : ascii) (l : list ascii)
  : option (list ascii) :=
  match l with
  | [] => if is_underscore prev then None else Some []
  | c :: l' =>
      if is_underscore c
      then if is_digit prev then drop_underscores c l' else None
      else if is_underscore prev && negb (is_digit c) then None
      else option_map (cons c) (drop_underscores c l')
  end.

(** An optional sign: [true] for a minus. *)
Definition read_sign (l : list ascii) : bool * list ascii :=
  match l with
  | c :: l' =>
      if is_minus c then (true, l')
      else if is_plus c then (false, l')
      else (false, l)
  | [] => (false, [])
  end.

(** The longest prefix of digits, and the rest. *)
Fixpoint take_digits (l : list ascii) : list ascii * list ascii :=
  match l with
  | c :: l' =>
      if is_digit c
      then let '(d, r) := take_digits l' in (c :: d, r)
      else ([], l)
  | [] => ([], [])
  end.

Definition digits_value (d : list ascii) : Z :=
  fold_left (fun acc c => 10 * acc + digit_val c)%Z d 0%Z.

(** A decimal literal: sign, integer digits, optional point and fraction
    digits (one digit at least overall), optional exponent with one digit
    at least; nothing may follow.  The result is the sign, the digits read
    as an integer and the power of ten that scales them. *)
Definition parse_decimal (l : list ascii) : option (bool * Z * Z) :=
  let '(neg, l1) := read_sign l in
  let '(ip, l2) := take_digits l1 in
  let '(fp, l3) :=
    match l2 with
    | c :: r => if is_dot c then take_digits r else ([], l2)
    | [] => ([], l2)
    end in
  match ip ++ fp with
  | [] => None
  | _ :: _ =>
      let m := digits_value (ip ++ fp) in
      let sh := Z.of_nat (List.length fp) in
      match l3 with
      | [] => Some (neg, m, (- sh)%Z)
      | c :: r =>
          if is_e c then
            let '(eneg, r1) := read_sign r in
            match take_digits r1 with
            | ((_ :: _) as ed, []) =>
                let x := digits_value ed in
                Some (neg, m, ((if eneg then - x else x) - sh)%Z)
            | _ => None
            end
          else None
      end
  end.

(** [inf], [infinity] and [nan], in any letter case, with an optional
    sign. *)
Definition parse_inf_or_nan (l : list ascii) : option float :=
  let '(neg, r) := read_sign l in
  let w := string_of_list_ascii (map lower r) in
  if (w =? "inf")%string || (w =? "infinity")%string then Some (inf neg)
  else if (w =? "nan")%string then Some nan
  else None.

(** [float(s)] on a string: [None] stands for [ValueError].  Bytes outside
    ASCII are rejected. *)
Definition of_string (s : string) : option float :=
  match strip (list_ascii_of_string s) with
  | [] => None
  | l =>
      match drop_underscores (chr 0) l with
      | None => None
      | Some l' =>
          match parse_decimal l' with
          | Some (neg, m, e) => Some (of_decimal neg m e)
          | None => parse_inf_or_nan l'
          end
      end
  end.

(** The characters that occur in the texts [float] accepts: white space,
    digits, the underscore, the signs, the point, and the letters of the
    exponent mark, of inf, infinity and nan in either case. *)
Definition float_char (c : ascii) : bool :=
  existsb (Ascii.eqb (lower c)) (list_ascii_of_string "aefinty")
  || is_space c || is_digit c || is_underscore c
  || is_plus c || is_minus c || is_dot c.

(** The sign of a float; a NaN carries none. *)
Definition sign_bit (x : float) : bool :=
  match x with
  | S754_zero s | S754_infinity s | S754_finite s _ _ => s
  | S754_nan => false
  end.

Definition FC (c : ascii) : Prop := float_char c = true.

Definition no_minus (c : ascii) : Prop := is_minus c = false.

End PyFloat.

(** ** Values, exceptions and results *)

(** A cell handed to the normalisers: [None], a float NaN (what pandas
    puts in an empty cell), or text. *)
Inductive cell :=
| PyNone
| PyNaN
| PyText (s : string).

(** The numbers the normalisers return: the [int] of [return 0], or a
    float. *)
Inductive pyval :=
| PyInt (z : Z)
| PyFloat (f : PyFloat.float).

Inductive exn := ValueError.

Inductive result (A : Type) :=
| Ret (a : A)
| Raise (e : exn).

Arguments Ret {A} a.
Arguments Raise {A} e.

Definition bind {A B : Type} (r : result A) (k : A -> result B) : result B :=
  match r with
  | Ret a => k a
  | Raise e => Raise e
  end.

Notation "x <- r ;; k" := (bind r (fun x => k))
  (at level 61, r at next level, right associativity).

(** [pd.isna(x)] on a cell *)
Definition isna (x : cell) : bool :=
  match x with
  | PyNone | PyNaN => true
  | PyText _ => false
  end.

(** [float(s)] *)
Definition float (s : string) : result PyFloat.float :=
  match PyFloat.of_string s with
  | Some f => Ret f
  | None => Raise ValueError
  end.

(** [x * n] for a float [x] and an [int] literal [n] *)
Definition times (x : PyFloat.float) (n : Z) : PyFloat.float :=
  PyFloat.mul x (PyFloat.of_int n).

(** [try: return float(s) / except: return 0] *)
Definition float_or_zero (s : string) : result pyval :=
  match float s with
  | Ret f => Ret (PyFloat f)
  | Raise _ => Ret (PyInt 0)
  end.

(** ** The two normalisers *)

Import PyStr.

(** The cleaning step: [replace] of the comma, then of the double quote,
    by the empty string. *)
Definition clean (s : string) : string :=
  replace (str1 dquote) EmptyString (replace "," EmptyString s).

Definition parse_time_to_microseconds (time_str : cell) : result pyval :=
  match time_str with
  | PyNone | PyNaN => Ret (PyInt 0)
  | PyText s =>
      if s =? EmptyString then Ret (PyInt 0)
      else
        let time_str := clean s in
        if contains "ms" time_str then
          x <- float (replace " ms" EmptyString time_str) ;;
          Ret (PyFloat (times x 1000))
        else if contains "μs" time_str then
          x <- float (replace " μs" EmptyString time_str) ;;
          Ret (PyFloat x)
        else if contains "s" time_str then
          x <- float (replace " s" EmptyString time_str) ;;
          Ret (PyFloat (times x 1000000))
        else float_or_zero time_str
  end.

Definition parse_memory (memory_str : cell) : result pyval :=
  match memory_str with
  | PyNone | PyNaN => Ret (PyInt 0)
  | PyText s =>
      if s =? EmptyString then Ret (PyInt 0)
      else
        let memory_str := clean s in
        if contains "KB" memory_str then
          x <- float (replace " KB" EmptyString memory_str) ;;
          Ret (PyFloat x)
        else if contains "MB" memory_str then
          x <- float (replace " MB" EmptyString memory_str) ;;
          Ret (PyFloat (times x 1024))
        else if contains "GB" memory_str then
          x <- float (replace " GB" EmptyString memory_str) ;;
          Ret (PyFloat (times (times x 1024) 1024))
        else float_or_zero memory_str
  end.

(** ** Benchmark tables and the CRUD comparison *)

(** A row of a loaded report: the three columns the comparison reads. *)
Record row := {
  Method : cell;
  Mean : cell;
  Allocated : cell
}.

Definition DataFrame := list row.

(** The dictionary returned by [load_data]. *)
Record data := {
  ef_antes : DataFrame;
  adonet_antes : DataFrame;
  dapper_antes : DataFrame;
  ef_despues : DataFrame;
  adonet_despues : DataFrame;
  dapper_despues : DataFrame
}.

(** A row of a copied frame once the two columns [Mean_μs] and
    [Allocated_KB] are added. *)
Record nrow := {
  src : row;
  Mean_us : pyval;
  Allocated_KB : pyval
}.

(** [column.apply(f)]: [f] on every element in order; the first exception
    ends the call. *)
Fixpoint apply {A B : Type} (f : A -> result B) (col : list A)
  : result (list B) :=
  match col with
  | [] => Ret []
  | x :: col' => y <- f x ;; ys <- apply f col' ;; Ret (y :: ys)
  end.

(** Rows put back together with their two new columns.  The numbers are
    kept as returned; pandas may store an [int] 0 as the float 0.0 next to
    floats, which is the same number. *)
Fixpoint with_columns (df : DataFrame) (ts ms : list pyval) : list nrow :=
  match df, ts, ms with
  | r :: df', t :: ts', m :: ms' =>
      {| src := r; Mean_us := t; Allocated_KB := m |} :: with_columns df' ts' ms'
  | _, _, _ => []
  end.

(** The body of the loop over the three copied frames. *)
Definition add_columns (df : DataFrame) : result (list nrow) :=
  ts <- apply parse_time_to_microseconds (map Mean df) ;;
  ms <- apply parse_memory (map Allocated df) ;;
  Ret (with_columns df ts ms).

Definition operations : list string :=
  ["CreateCustomer"; "ReadCustomer"; "UpdateCustomer"; "DeleteCustomer";
   "CreateProduct"; "ReadProduct"; "UpdateProduct"; "DeleteProduct";
   "CreateOrder"; "ReadOrder"; "UpdateOrder"; "DeleteOrder";
   "CreateOrderDetail"; "ReadOrderDetail"; "UpdateOrderDetail";
   "DeleteOrderDetail"].

(** [row['Method'] == op]: a missing method equals no operation. *)
Definition method_is (op : string) (r : row) : bool :=
  match Method r with
  | PyText m => m =? op
  | _ => false
  end.

(** [df[df['Method'] == op]] *)
Definition select (op : string) (df : list nrow) : list nrow :=
  filter (fun n => method_is op (src n)) df.

(** A record of the comparison table. *)
Record record := {
  Operation : string;
  Technology : string;
  Time_us : pyval;
  Memory_KB : pyval
}.

(** [if not rows.empty: comparison_data.append({..., rows[...].iloc[0]})] *)
Definition first_record (op tech : string) (rows : list nrow) : list record :=
  match rows with
  | [] => []
  | n :: _ =>
      [{| Operation := op; Technology := tech;
          Time_us := Mean_us n; Memory_KB := Allocated_KB n |}]
  end.

(** The body of the loop over the operations: the records appended for
    one operation, in the order of the three tests. *)
Definition op_records (ef adonet dapper : list nrow) (op : string)
  : list record :=
  (first_record op "Entity Framework" (select op ef)
   ++ first_record op "ADO.NET" (select op adonet)
   ++ first_record op "Dapper" (select op dapper))%list.

Definition prepare_crud_comparison_data (d : data) : result (list record) :=
  ef <- add_columns (ef_antes d) ;;
  adonet <- add_columns (adonet_antes d) ;;
  dapper <- add_columns (dapper_antes d) ;;
  Ret (flat_map (op_records ef adonet dapper) operations).

(** The three technologies, their labels and their source tables. *)
Inductive technology := EntityFramework | AdoNet | Dapper.

Definition tech_name (t : technology) : string :=
  match t with
  | EntityFramework => "Entity Framework"
  | AdoNet => "ADO.NET"
  | Dapper => "Dapper"
  end.

Definition source (d : data) (t : technology) : DataFrame :=
  match t with
  | EntityFramework => ef_antes d
  | AdoNet => adonet_antes d
  | Dapper => dapper_antes d
  end.

(** The rows of a source table whose method is the operation. *)
Definition rows_of (op : string) (df : DataFrame) : list row :=
  filter (method_is op) df.

(** The records of the comparison table for an operation, and for an
    operation and a technology. *)
Definition for_operation (op : string) (r : record) : bool :=
  Operation r =? op.

Definition for_technology (t : technology) (r : record) : bool :=
  Technology r =? tech_name t.

Definition for_pair (op : string) (t : technology) (r : record) : bool :=
  for_operation op r && for_technology t r.

(** The frame row [n] is the source row [r] with its two normalised
    columns. *)
Definition normalized_from (r : row) (n : nrow) : Prop :=
  src n = r
  /\ parse_time_to_microseconds (Mean r) = Ret (Mean_us n)
  /\ parse_memory (Allocated r) = Ret (Allocated_KB n).

(** Two small loads: one with a repeated operation, one with a method that
    is not in the list of operations. *)
Definition text_row (method mean allocated : string) : row :=
  {| Method := PyText method; Mean := PyText mean;
     Allocated := PyText allocated |}.

Definition crud_load : data :=
  {| ef_antes := [text_row "CreateOrder" "1,234 ms" "2 MB";
                  text_row "CreateOrder" "9 ms" "9 KB"];
     adonet_antes := [text_row "ReadOrder" "150 μs" "1 KB"];
     dapper_antes := [];
     ef_despues := []; adonet_despues := []; dapper_despues := [] |}.


Definition unlisted_load : data :=
  {| ef_antes := [text_row "GetOrder" "1 ms" "1 KB"];
     adonet_antes := [];
     dapper_antes := [];
     ef_despues := []; adonet_despues := []; dapper_despues := [] |}.

(** ** Reference definitions, following the specification's wording *)

(** A unit marker: the text looked for, the text stripped, and the factors
    applied in turn to the number read. *)
Record marker := {
  looked_for : string;
  stripped : string;
  factors : list Z
}.

Definition duration_markers : list marker :=
  [ {| looked_for := "ms"; stripped := " ms"; factors := [1000%Z] |};
    {| looked_for := "μs"; stripped := " μs"; factors := [] |};
    {| looked_for := "s"; stripped := " s"; factors := [1000000%Z] |} ].

Definition memory_markers : list marker :=
  [ {| looked_for := "KB"; stripped := " KB"; factors := [] |};
    {| looked_for := "MB"; stripped := " MB"; factors := [1024%Z] |};
    {| looked_for := "GB"; stripped := " GB"; factors := [1024%Z; 1024%Z] |} ].

(** The first marker of the list that occurs in the text. *)
Definition first_marker (ms : list marker) (text : string) : option marker :=
  find (fun m => contains (looked_for m) text) ms.

(** The normaliser of the specification: zero for an absent or empty
    input; otherwise the branch of the first marker found in the cleaned
    text, or the direct parse with zero as fallback. *)
Definition normalize (ms : list marker) (x : cell) : result pyval :=
  match x with
  | PyNone | PyNaN => Ret (PyInt 0)
  | PyText s =>
      if s =? EmptyString then Ret (PyInt 0)
      else
        match first_marker ms (clean s) with
        | Some m =>
            v <- float (replace (stripped m) EmptyString (clean s)) ;;
            Ret (PyFloat (fold_left times (factors m) v))
        | None => float_or_zero (clean s)
        end
  end.

(** The text with every comma and every double quote taken out. *)
Fixpoint without_commas_quotes (s : string) : string :=
  match s with
  | EmptyString => EmptyString
  | String c s' =>
      if Ascii.eqb c comma || Ascii.eqb c dquote
      then without_commas_quotes s'
      else String c (without_commas_quotes s')
  end.

(** [v < 0] on a returned number *)
Definition below_zero (v : pyval) : bool :=
  match v with
  | PyInt z => (z <? 0)%Z
  | PyFloat f => PyFloat.ltb f (S754_zero false)
  end.

(** Does the input text hold a minus sign? *)
Definition has_minus (x : cell) : bool :=
  match x with
  | PyText s => mem minus s
  | _ => false
  end.

(** Does the call return (rather than raise)? *)
Definition returns {A : Type} (r : result A) : bool :=
  match r with
  | Ret _ => true
  | Raise _ => false
  end.

(** Every cell of the two measured columns is normalised without an
    exception. *)
Definition normalizable (df : DataFrame) : bool :=
  forallb (fun r => returns (parse_time_to_microseconds (Mean r))
                    && returns (parse_memory (Allocated r))) df.

(** The three tables the comparison reads are normalisable. *)
Definition all_normalizable (d : data) : bool :=
  normalizable (ef_antes d) && normalizable (adonet_antes d)
  && normalizable (dapper_antes d).

(** ** The query tables and the combined table *)

(** What ends a call of the later table builders: an exception of a
    normaliser, or the [AttributeError] of [.replace] called on a Method
    that is not text. *)
Inductive failure :=
| Normalizer (e : exn)
| AttributeError.

Inductive outcome (A : Type) :=
| Done (a : A)
| Failed (f : failure).

Arguments Done {A} a.
Arguments Failed {A} f.

Definition obind {A B : Type} (r : outcome A) (k : A -> outcome B)
  : outcome B :=
  match r with
  | Done a => k a
  | Failed f => Failed f
  end.

Notation "x <-- r ;; k" := (obind r (fun x => k))
  (at level 61, r at next level, right associativity).

Definition lift {A : Type} (r : result A) : outcome A :=
  match r with
  | Ret a => Done a
  | Raise e => Failed (Normalizer e)
  end.

Definition finishes {A : Type} (r : outcome A) : bool :=
  match r with
  | Done _ => true
  | Failed _ => false
  end.

(** [row['Method'].replace(tag, '')] followed by the [replace] of the
    single quote by the empty string. *)
Definition clean_method (tag : string) (m : cell) : outcome string :=
  match m with
  | PyText s => Done (replace "'" EmptyString (replace tag EmptyString s))
  | PyNone | PyNaN => Failed AttributeError
  end.

Module Query.

(** A record of [prepare_query_comparison_data]. *)
Record record := {
  Operation : string;
  Technology : string;
  Period : string;
  Time_us : pyval;
  Memory_KB : pyval
}.

End Query.

Module All.

(** A record of [prepare_antes_despues_comparison_data]. *)
Record record := {
  Operation : string;
  Technology : string;
  Period : string;
  Time_us : pyval;
  Memory_KB : pyval;
  Category : string
}.

End All.

(** [for _, row in frame.iterrows(): comparison_data.append({...})] of the
    query table, for the frame of one technology. *)
Fixpoint query_rows (tag tech : string) (frame : list nrow)
  : outcome (list Query.record) :=
  match frame with
  | [] => Done []
  | n :: frame' =>
      method_clean <-- clean_method tag (Method (src n)) ;;
      rest <-- query_rows tag tech frame' ;;
      Done ({| Query.Operation := method_clean;
               Query.Technology := tech;
               Query.Period := "Después";
               Query.Time_us := Mean_us n;
               Query.Memory_KB := Allocated_KB n |} :: rest)
  end.

Definition prepare_query_comparison_data (d : data)
  : outcome (list Query.record) :=
  ef <-- lift (add_columns (ef_despues d)) ;;
  q1 <-- query_rows "EF: " "Entity Framework" ef ;;
  adonet <-- lift (add_columns (adonet_despues d)) ;;
  q2 <-- query_rows "ADO.NET: " "ADO.NET" adonet ;;
  dapper <-- lift (add_columns (dapper_despues d)) ;;
  q3 <-- query_rows "Dapper: " "Dapper" dapper ;;
  Done (q1 ++ q2 ++ q3)%list.

(** The same loop in the combined table: the records carry a category. *)
Fixpoint despues_rows (tag tech : string) (frame : list nrow)
  : outcome (list All.record) :=
  match frame with
  | [] => Done []
  | n :: frame' =>
      method_clean <-- clean_method tag (Method (src n)) ;;
      rest <-- despues_rows tag tech frame' ;;
      Done ({| All.Operation := method_clean;
               All.Technology := tech;
               All.Period := "Después";
               All.Time_us := Mean_us n;
               All.Memory_KB := Allocated_KB n;
               All.Category := "Query" |} :: rest)
  end.

(** The CRUD part of the combined table: the record of the first row, if
    any, and the records of one operation. *)
Definition first_antes_record (op tech : string) (rows : list nrow)
  : list All.record :=
  match rows with
  | [] => []
  | n :: _ =>
      [{| All.Operation := op; All.Technology := tech;
          All.Period := "Antes";
          All.Time_us := Mean_us n; All.Memory_KB := Allocated_KB n;
          All.Category := "CRUD" |}]
  end.

Definition antes_records (ef adonet dapper : list nrow) (op : string)
  : list All.record :=
  (first_antes_record op "Entity Framework" (select op ef)
   ++ first_antes_record op "ADO.NET" (select op adonet)
   ++ first_antes_record op "Dapper" (select op dapper))%list.

Definition prepare_antes_despues_comparison_data (d : data)
  : outcome (list All.record) :=
  ef_a <-- lift (add_columns (ef_antes d)) ;;
  adonet_a <-- lift (add_columns (adonet_antes d)) ;;
  dapper_a <-- lift (add_columns (dapper_antes d)) ;;
  let crud := flat_map (antes_records ef_a adonet_a dapper_a) operations in
  ef <-- lift (add_columns (ef_despues d)) ;;
  adonet <-- lift (add_columns (adonet_despues d)) ;;
  dapper <-- lift (add_columns (dapper_despues d)) ;;
  q1 <-- despues_rows "EF: " "Entity Framework" ef ;;
  q2 <-- despues_rows "ADO.NET: " "ADO.NET" adonet ;;
  q3 <-- despues_rows "Dapper: " "Dapper" dapper ;;
  Done (crud ++ q1 ++ q2 ++ q3)%list.

(** The rows of a period, by the boolean mask on the column Period. *)
Definition period_rows (period : string) (df_all : list All.record)
  : list All.record :=
  filter (fun r => All.Period r =? period) df_all.

(** What the look-up of a column gives: the rows selected, or the
    [KeyError] of a frame without that column. *)
Inductive selection :=
| Rows (rows : list All.record)
| KeyError.

(** [df_all[df_all['Period'] == period]], the first step of the charts on
    the combined table.  The table is [pd.DataFrame(comparison_data)]:
    built from an empty list it has no column at all, and the look-up of
    Period raises. *)
Definition period_data (period : string) (df_all : list All.record)
  : selection :=
  match df_all with
  | [] => KeyError
  | _ :: _ => Rows (period_rows period df_all)
  end.

(** The type given to an operation name by
    [create_operation_type_analysis]. *)
Definition operation_type (x : string) : string :=
  if contains "Create" x then "Create"
  else if contains "Read" x then "Read"
  else if contains "Update" x then "Update"
  else if contains "Delete" x then "Delete"
  else "Query".

(** *** Vocabulary of the statements on these tables *)

(** A CRUD record and a query record as they stand in the combined
    table. *)
Definition antes (r : record) : All.record :=
  {| All.Operation := Operation r; All.Technology := Technology r;
     All.Period := "Antes";
     All.Time_us := Time_us r; All.Memory_KB := Memory_KB r;
     All.Category := "CRUD" |}.

Definition despues (q : Query.record) : All.record :=
  {| All.Operation := Query.Operation q;
     All.Technology := Query.Technology q;
     All.Period := Query.Period q;
     All.Time_us := Query.Time_us q; All.Memory_KB := Query.Memory_KB q;
     All.Category := "Query" |}.

(** Every Method of the table is text. *)
Definition methods_present (df : DataFrame) : bool :=
  forallb (fun r => negb (isna (Method r))) df.

(** The three query tables are normalisable, and their methods are text. *)
Definition despues_normalizable (d : data) : bool :=
  normalizable (ef_despues d) && normalizable (adonet_despues d)
  && normalizable (dapper_despues d).

Definition despues_methods_present (d : data) : bool :=
  methods_present (ef_despues d) && methods_present (adonet_despues d)
  && methods_present (dapper_despues d).

(** The query record [q] comes from the source row [r] of the table of
    the technology [tech], whose tag is [tag]. *)
Definition query_from (tag tech : string) (r : row) (q : Query.record)
  : Prop :=
  clean_method tag (Method r) = Done (Query.Operation q)
  /\ Query.Technology q = tech
  /\ Query.Period q = "Después"
  /\ parse_time_to_microseconds (Mean r) = Ret (Query.Time_us q)
  /\ parse_memory (Allocated r) = Ret (Query.Memory_KB q).

(** The tags put before the method names of the three query reports. *)
Definition method_tags : list string := ["EF: "; "ADO.NET: "; "Dapper: "].

(** A load with one query report that names its method, and one with a
    method left empty. *)
Definition query_load : data :=
  {| ef_antes := [text_row "CreateOrder" "1,234 ms" "2 MB"];
     adonet_antes := [];
     dapper_antes := [];
     ef_despues := [text_row "EF: 'GetOrder'" "150 μs" "1 KB"];
     adonet_despues := [text_row "ADO.NET: 'GetOrder'" "90 μs" "1 KB"];
     dapper_despues := [] |}.

Definition unnamed_load : data :=
  {| ef_antes := []; adonet_antes := []; dapper_antes := [];
     ef_despues := [text_row "EF: 'GetOrder'" "150 μs" "1 KB"];
     adonet_despues := [{| Method := PyNaN; Mean := PyText "90 μs";
                           Allocated := PyText "1 KB" |}];
     dapper_despues := [] |}.

(** * Properties *)

(** ** Strings: searching and replacing *)

Section StringFacts.

Lemma prefix_nil (s : string) : prefix EmptyString s = true.
Proof. destruct s; reflexivity. Qed.

Lemma prefix_refl (s : string) : prefix s s = true.
Proof.
  induction s as [|a s IH]; [reflexivity|].
  simpl. destruct (ascii_dec a a) as [_|N]; [exact IH | now elim N].
Qed.

Lemma contains_cons (pat : string) (c : ascii) (s : string) :
  contains pat (String c s) = prefix pat (String c s) || contains pat s.
Proof. reflexivity. Qed.

Lemma mem_app (c : ascii) (u v : string) :
  mem c (u ++ v) = mem c u || mem c v.
Proof.
  induction u as [|a u IH]; [reflexivity|].
  simpl. now rewrite IH, orb_assoc.
Qed.

(** A match needs every character of the pattern. *)
Lemma prefix_mem (z : ascii) (pat s : string) :
  prefix pat s = true -> mem z pat = true -> mem z s = true.
Proof.
  revert s. induction pat as [|a pat IH]; intros s Hp Hz; [discriminate|].
  destruct s as [|b s]; [discriminate|].
  simpl in Hp. destruct (ascii_dec a b) as [->|]; [|discriminate].
  simpl in Hz |- *. apply orb_true_iff in Hz as [Hz|Hz].
  - now rewrite Hz.
  - rewrite (IH s Hp Hz). apply orb_true_r.
Qed.

Lemma contains_mem (z : ascii) (pat s : string) :
  mem z pat = true -> mem z s = false -> contains pat s = false.
Proof.
  intros Hz. induction s as [|b s IH]; intros Hs.
  - destruct pat; [discriminate | reflexivity].
  - rewrite contains_cons.
    simpl in Hs. apply orb_false_iff in Hs as [Hb Hs].
    rewrite (IH Hs), orb_false_r.
    destruct (prefix pat (String b s)) eqn:E; [|reflexivity].
    pose proof (prefix_mem z _ _ E Hz) as M.
    simpl in M. rewrite Hb, Hs in M. discriminate.
Qed.

(** A match cannot run over a character the pattern lacks. *)
Lemma prefix_app_fresh (b : ascii) (pat u t : string) :
  mem b pat = false ->
  prefix pat (u ++ String b t) = prefix pat u.
Proof.
  revert u. induction pat as [|a pat IH]; intros u Hb.
  - now rewrite !prefix_nil.
  - simpl in Hb. apply orb_false_iff in Hb as [Hab Hb].
    destruct u as [|c u]; simpl.
    + destruct (ascii_dec a b) as [->|]; [|reflexivity].
      now rewrite Ascii.eqb_refl in Hab.
    + destruct (ascii_dec a c); [now apply IH | reflexivity].
Qed.

Lemma contains_app_fresh (b : ascii) (pat u t : string) :
  mem b pat = false ->
  contains pat (u ++ String b t) = contains pat u || contains pat t.
Proof.
  intros Hb. induction u as [|c u IH].
  - change (EmptyString ++ String b t) with (String b t).
    rewrite contains_cons.
    change (String b t) with (EmptyString ++ String b t) at 1.
    rewrite prefix_app_fresh by assumption.
    cbn [contains]. now rewrite orb_false_r.
  - change (String c u ++ String b t) with (String c (u ++ String b t)).
    rewrite !contains_cons, IH.
    change (String c (u ++ String b t)) with (String c u ++ String b t).
    now rewrite prefix_app_fresh, orb_assoc.
Qed.

(** The text [p], a separator and a marker: the marker is found exactly
    when it is found after the separator, as long as [p] lacks one of its
    characters. *)
Lemma contains_after_separator (b z : ascii) (pat p t : string) :
  mem b pat = false -> mem z pat = true -> mem z p = false ->
  contains pat (p ++ String b t) = contains pat t.
Proof.
  intros Hb Hz Hp.
  now rewrite contains_app_fresh, (contains_mem z pat p).
Qed.

Lemma replace_scan_skip (old new s : string) (k : nat) :
  length s <= k -> replace_scan old new s k = EmptyString.
Proof.
  revert k. induction s as [|c s IH]; intros k Hk; [reflexivity|].
  destruct k as [|k]; simpl in Hk; [lia|].
  simpl. apply IH. lia.
Qed.

(** Replacing a one-character pattern by nothing deletes the character. *)
Lemma replace_char_delete (c : ascii) (s : string) :
  replace (str1 c) EmptyString s = delete c s.
Proof.
  unfold replace, str1.
  induction s as [|a s IH]; [reflexivity|].
  simpl. rewrite prefix_nil.
  destruct (ascii_dec c a) as [->|N].
  - now rewrite Ascii.eqb_refl.
  - apply Ascii.eqb_neq in N. rewrite N. now f_equal.
Qed.

(** Replacing by nothing adds no character. *)
Lemma replace_scan_mem (z : ascii) (old s : string) (k : nat) :
  mem z s = false -> mem z (replace_scan old EmptyString s k) = false.
Proof.
  revert k. induction s as [|a s IH]; intros k Hs; [reflexivity|].
  simpl in Hs. apply orb_false_iff in Hs as [Ha Hs].
  cbn [replace_scan]. destruct k as [|k]; [|now apply IH].
  destruct (prefix old (String a s)); cbn [append mem].
  - now apply IH.
  - rewrite Ha. now apply IH.
Qed.

Lemma replace_mem (z : ascii) (old s : string) :
  old <> EmptyString ->
  mem z s = false -> mem z (replace old EmptyString s) = false.
Proof.
  intros Ho Hs. destruct old as [|a old]; [now elim Ho|].
  now apply replace_scan_mem.
Qed.

Lemma delete_mem (z c : ascii) (s : string) :
  mem z s = false -> mem z (delete c s) = false.
Proof.
  induction s as [|a s IH]; intros Hs; [reflexivity|].
  simpl in Hs. apply orb_false_iff in Hs as [Ha Hs].
  simpl. destruct (Ascii.eqb c a); simpl; [|rewrite Ha]; now apply IH.
Qed.

Lemma delete_absent (c : ascii) (s : string) :
  mem c s = false -> delete c s = s.
Proof.
  induction s as [|a s IH]; intros Hs; [reflexivity|].
  simpl in Hs. apply orb_false_iff in Hs as [Ha Hs].
  simpl. rewrite Ha. f_equal. now apply IH.
Qed.

(** The marker together with its separator, at the end of a text that
    lacks one character of the marker, is the only match. *)
Lemma replace_suffix (b z : ascii) (mk p : string) :
  mem b mk = false -> mem z mk = true -> mem z p = false ->
  replace (String b mk) EmptyString (p ++ String b mk) = p.
Proof.
  intros Hb Hz. unfold replace.
  induction p as [|c p IH]; intros Hp.
  - change (EmptyString ++ String b mk) with (String b mk).
    cbn [replace_scan]. rewrite prefix_refl.
    cbn [length Nat.sub]. rewrite Nat.sub_0_r.
    now rewrite replace_scan_skip.
  - simpl in Hp. apply orb_false_iff in Hp as [Hc Hp].
    change (String c p ++ String b mk) with (String c (p ++ String b mk)).
    cbn [replace_scan].
    assert (prefix (String b mk) (String c (p ++ String b mk)) = false) as ->.
    { simpl. destruct (ascii_dec b c); [|reflexivity].
      rewrite prefix_app_fresh by assumption.
      destruct (prefix mk p) eqn:E; [|reflexivity].
      rewrite (prefix_mem z _ _ E Hz) in Hp. discriminate. }
    f_equal. now apply IH.
Qed.

End StringFacts.

(** ** Cleaning *)

Lemma clean_delete (s : string) : clean s = delete dquote (delete comma s).
Proof.
  unfold clean.
  change "," with (str1 comma).
  now rewrite !replace_char_delete.
Qed.

Lemma clean_without (s : string) : clean s = without_commas_quotes s.
Proof.
  rewrite clean_delete.
  induction s as [|a s IH]; [reflexivity|].
  cbn [delete without_commas_quotes].
  rewrite (Ascii.eqb_sym a comma), (Ascii.eqb_sym a dquote).
  destruct (Ascii.eqb comma a) eqn:E1; cbn [orb delete]; [exact IH|].
  destruct (Ascii.eqb dquote a) eqn:E2; [exact IH|].
  now f_equal.
Qed.

Lemma without_idem (s : string) :
  without_commas_quotes (without_commas_quotes s) = without_commas_quotes s.
Proof.
  induction s as [|a s IH]; [reflexivity|].
  cbn [without_commas_quotes].
  destruct (Ascii.eqb a comma || Ascii.eqb a dquote) eqn:E; [exact IH|].
  cbn [without_commas_quotes]. rewrite E. now f_equal.
Qed.

Lemma clean_idem (s : string) : clean (clean s) = clean s.
Proof. rewrite !clean_without. apply without_idem. Qed.

Lemma clean_mem (z : ascii) (s : string) :
  mem z s = false -> mem z (clean s) = false.
Proof. intros H. rewrite clean_delete. now apply delete_mem, delete_mem. Qed.

Lemma clean_absent (s : string) :
  mem comma s = false -> mem dquote s = false -> clean s = s.
Proof.
  intros H1 H2. rewrite clean_delete, (delete_absent comma s H1).
  now apply delete_absent.
Qed.

(** ** The normalisers against the reference definition *)

Lemma parse_time_normalize (x : cell) :
  parse_time_to_microseconds x = normalize duration_markers x.
Proof.
  destruct x as [| |s]; try reflexivity.
  unfold parse_time_to_microseconds, normalize, first_marker, duration_markers.
  destruct (s =? EmptyString); [reflexivity|].
  cbn [find looked_for].
  destruct (contains "ms" (clean s)); [reflexivity|].
  destruct (contains "μs" (clean s)); [reflexivity|].
  destruct (contains "s" (clean s)); reflexivity.
Qed.

Lemma parse_memory_normalize (x : cell) :
  parse_memory x = normalize memory_markers x.
Proof.
  destruct x as [| |s]; try reflexivity.
  unfold parse_memory, normalize, first_marker, memory_markers.
  destruct (s =? EmptyString); [reflexivity|].
  cbn [find looked_for].
  destruct (contains "KB" (clean s)); [reflexivity|].
  destruct (contains "MB" (clean s)); [reflexivity|].
  destruct (contains "GB" (clean s)); reflexivity.
Qed.

(** A text with the millisecond marker has the seconds marker too: the
    order of the tests decides. *)
Lemma ms_has_s (t : string) : contains "ms" t = true -> contains "s" t = true.
Proof.
  induction t as [|c t IH]; [discriminate|].
  rewrite !contains_cons. intros H. apply orb_true_iff in H as [H|H].
  - destruct t as [|c' t]; cbn [prefix] in H.
    + destruct (ascii_dec "m" c); discriminate.
    + destruct (ascii_dec "m" c); [|discriminate].
      destruct (ascii_dec "s" c') as [<-|]; [|discriminate].
      rewrite (contains_cons "s" "s" t).
      assert (prefix "s" (String "s" t) = true) as ->
          by (cbn [prefix]; destruct (ascii_dec "s" "s") as [_|N];
              [apply prefix_nil | now elim N]).
      apply orb_true_r.
  - rewrite (IH H). apply orb_true_r.
Qed.

(** Emptied by the cleaning, a text is neither marked nor a number. *)
Lemma normalize_cleaned_empty (ms : list marker) (s : string) :
  (forall m, In m ms -> looked_for m <> EmptyString) ->
  clean s = EmptyString -> normalize ms (PyText s) = Ret (PyInt 0).
Proof.
  intros Hms E. unfold normalize.
  destruct (s =? EmptyString); [reflexivity|].
  rewrite E.
  assert (first_marker ms EmptyString = None) as ->; [|reflexivity].
  unfold first_marker. induction ms as [|m ms IH]; [reflexivity|].
  cbn [find].
  destruct (looked_for m) as [|a l] eqn:L.
  - elim (Hms m); [now left | exact L].
  - cbn [contains prefix orb]. apply IH.
    intros m' Hm'. apply Hms. now right.
Qed.

(** Commas and double quotes of the input have no effect. *)
Lemma normalize_without (ms : list marker) (s : string) :
  (forall m, In m ms -> looked_for m <> EmptyString) ->
  normalize ms (PyText s) = normalize ms (PyText (without_commas_quotes s)).
Proof.
  intros Hms.
  destruct (without_commas_quotes s) as [|a w] eqn:W.
  - rewrite normalize_cleaned_empty; [reflexivity | exact Hms |].
    now rewrite clean_without.
  - unfold normalize.
    rewrite <- W, <- clean_without, clean_idem.
    destruct (s =? EmptyString) eqn:E.
    + apply String.eqb_eq in E. subst s. discriminate W.
    + rewrite clean_without, W. reflexivity.
Qed.

Lemma duration_markers_nonempty (m : marker) :
  In m duration_markers -> looked_for m <> EmptyString.
Proof. intros [<-|[<-|[<-|[]]]]; discriminate. Qed.

Lemma memory_markers_nonempty (m : marker) :
  In m memory_markers -> looked_for m <> EmptyString.
Proof. intros [<-|[<-|[<-|[]]]]; discriminate. Qed.

(** ** Claims on the normalisers *)

(** C3: both normalisers are the reference normaliser over their marker
    list: the markers are looked for in the fixed order millisecond,
    microsecond, seconds (duration) and kilobyte, megabyte, gigabyte
    (memory), and the branch of the first marker found gives the result. *)
Theorem marker_precedence :
  (forall x, parse_time_to_microseconds x = normalize duration_markers x)
  /\ (forall x, parse_memory x = normalize memory_markers x)
  /\ map looked_for duration_markers = ["ms"; "μs"; "s"]
  /\ map looked_for memory_markers = ["KB"; "MB"; "GB"].
Proof.
  repeat split.
  - exact parse_time_normalize.
  - exact parse_memory_normalize.
Qed.

(** C5: an absent input ([None] or NaN) and the empty text give 0, for
    both normalisers. *)
Theorem absent_or_empty_is_zero :
  (forall x, isna x = true -> parse_time_to_microseconds x = Ret (PyInt 0))
  /\ (forall x, isna x = true -> parse_memory x = Ret (PyInt 0))
  /\ parse_time_to_microseconds (PyText EmptyString) = Ret (PyInt 0)
  /\ parse_memory (PyText EmptyString) = Ret (PyInt 0).
Proof.
  repeat split; intros [| |s] H; (reflexivity || discriminate H).
Qed.

Lemma absent_or_empty_is_zero_witness :
  parse_time_to_microseconds PyNaN = Ret (PyInt 0)
  /\ parse_memory PyNone = Ret (PyInt 0).
Proof.
  destruct absent_or_empty_is_zero as (Ht & Hm & _).
  split; [apply (Ht PyNaN) | apply (Hm PyNone)]; reflexivity.
Defined.

(** C6: when the cleaned text holds no marker and [float] rejects it, the
    normaliser returns 0 rather than raising; so it does on the text
    garbage. *)
Theorem malformed_is_zero :
  (forall s,
      first_marker duration_markers (clean s) = None ->
      float (clean s) = Raise ValueError ->
      parse_time_to_microseconds (PyText s) = Ret (PyInt 0))
  /\ (forall s,
      first_marker memory_markers (clean s) = None ->
      float (clean s) = Raise ValueError ->
      parse_memory (PyText s) = Ret (PyInt 0))
  /\ parse_time_to_microseconds (PyText "garbage") = Ret (PyInt 0).
Proof.
  repeat split.
  - intros s Hm Hf. rewrite parse_time_normalize. unfold normalize.
    destruct (s =? EmptyString); [reflexivity|].
    rewrite Hm. unfold float_or_zero. now rewrite Hf.
  - intros s Hm Hf. rewrite parse_memory_normalize. unfold normalize.
    destruct (s =? EmptyString); [reflexivity|].
    rewrite Hm. unfold float_or_zero. now rewrite Hf.
Qed.

Lemma malformed_is_zero_witness :
  parse_time_to_microseconds (PyText "n/a") = Ret (PyInt 0)
  /\ parse_memory (PyText "12 bytes") = Ret (PyInt 0).
Proof.
  destruct malformed_is_zero as (Ht & Hm & _).
  split; [apply (Ht "n/a") | apply (Hm "12 bytes")]; reflexivity.
Defined.

(** C10: each normaliser gives the same result on a text and on that text
    with every comma and every double quote taken out, wherever they
    stand. *)
Theorem commas_and_quotes_ignored (s : string) :
  parse_time_to_microseconds (PyText s)
  = parse_time_to_microseconds (PyText (without_commas_quotes s))
  /\ parse_memory (PyText s) = parse_memory (PyText (without_commas_quotes s)).
Proof.
  rewrite !parse_time_normalize, !parse_memory_normalize. split.
  - apply normalize_without, duration_markers_nonempty.
  - apply normalize_without, memory_markers_nonempty.
Qed.

(** C2, at inputs where it fails: a nanosecond reading has the seconds
    marker and is no number once the marker is stripped, and a marker
    written without its space is not stripped at all; [float] raises and
    nothing catches the exception. *)
Theorem marked_text_can_raise :
  parse_time_to_microseconds (PyText "150.5 ns") = Raise ValueError
  /\ parse_memory (PyText "5KB") = Raise ValueError.
Proof. split; reflexivity. Qed.

(** ** The texts accepted by [float] *)

Module PyFloatFacts.
Import PyFloat.
Local Open Scope list_scope.

Section Forall_transfer.
Variable P : ascii -> Prop.

Lemma lstrip_Forall (l : list ascii) : Forall P l -> Forall P (lstrip l).
Proof.
  induction 1 as [|c l Hc Hl IH]; [constructor|].
  cbn [lstrip]. destruct (is_space c); [exact IH | now constructor].
Qed.

Lemma strip_Forall (l : list ascii) : Forall P l -> Forall P (strip l).
Proof.
  intros H. unfold strip.
  now apply Forall_rev, lstrip_Forall, Forall_rev, lstrip_Forall.
Qed.

Lemma drop_underscores_Forall (prev : ascii) (l l' : list ascii) :
  drop_underscores prev l = Some l' -> Forall P l -> Forall P l'.
Proof.
  revert prev l'. induction l as [|c l IH]; intros prev l' E H.
  - cbn [drop_underscores] in E. destruct (is_underscore prev); [discriminate|].
    injection E as <-. constructor.
  - inversion H as [|? ? Hc Hl]; subst.
    cbn [drop_underscores] in E.
    destruct (is_underscore c).
    + destruct (is_digit prev); [|discriminate]. now apply (IH c).
    + destruct (is_underscore prev && negb (is_digit c)); [discriminate|].
      destruct (drop_underscores c l) as [r|] eqn:R; [|discriminate].
      injection E as <-. constructor; [exact Hc | now apply (IH c)].
Qed.

Hypothesis P_space : forall c, is_space c = true -> P c.
Hypothesis P_underscore : forall c, is_underscore c = true -> P c.

Lemma lstrip_Forall_inv (l : list ascii) :
  Forall P (lstrip l) -> Forall P l.
Proof.
  induction l as [|c l IH]; intros H; [constructor|].
  cbn [lstrip] in H. destruct (is_space c) eqn:E; [|exact H].
  constructor; [now apply P_space | now apply IH].
Qed.

Lemma strip_Forall_inv (l : list ascii) :
  Forall P (strip l) -> Forall P l.
Proof.
  intros H. unfold strip in H.
  apply lstrip_Forall_inv.
  rewrite <- (rev_involutive (lstrip l)). apply Forall_rev.
  apply lstrip_Forall_inv.
  rewrite <- (rev_involutive (lstrip (rev (lstrip l)))).
  now apply Forall_rev.
Qed.

Lemma drop_underscores_Forall_inv (prev : ascii) (l l' : list ascii) :
  drop_underscores prev l = Some l' -> Forall P l' -> Forall P l.
Proof.
  revert prev l'. induction l as [|c l IH]; intros prev l' E H; [constructor|].
  cbn [drop_underscores] in E.
  destruct (is_underscore c) eqn:U.
  - destruct (is_digit prev); [|discriminate].
    constructor; [now apply P_underscore | now apply (IH c l')].
  - destruct (is_underscore prev && negb (is_digit c)); [discriminate|].
    destruct (drop_underscores c l) as [r|] eqn:R; [|discriminate].
    injection E as <-. inversion H; subst.
    constructor; [assumption | now apply (IH c r)].
Qed.
End Forall_transfer.

Lemma take_digits_spec (l : list ascii) :
  l = fst (take_digits l) ++ snd (take_digits l)
  /\ Forall (fun c => is_digit c = true) (fst (take_digits l)).
Proof.
  induction l as [|c l [IH1 IH2]]; [now split; [|constructor]|].
  cbn [take_digits]. destruct (is_digit c) eqn:D.
  - destruct (take_digits l) as [d r]. cbn [fst snd] in *.
    split; [now rewrite IH1 at 1 | now constructor].
  - split; [reflexivity | constructor].
Qed.

Lemma read_sign_spec (l : list ascii) :
  (read_sign l = (false, l))
  \/ (exists c, l = c :: snd (read_sign l)
                 /\ (is_minus c = true \/ is_plus c = true)).
Proof.
  destruct l as [|c l]; [now left|].
  cbn [read_sign]. destruct (is_minus c) eqn:M.
  - right. exists c. now split; [|left].
  - destruct (is_plus c) eqn:Q; [|now left].
    right. exists c. now split; [|right].
Qed.

Lemma read_sign_minus (l : list ascii) :
  Forall (fun c => is_minus c = false) l -> fst (read_sign l) = false.
Proof.
  destruct 1 as [|c l Hc _]; [reflexivity|].
  cbn [read_sign]. rewrite Hc. now destruct (is_plus c).
Qed.

Lemma is_char_eq (n : nat) (c : ascii) :
  is_char n c = true -> c = ascii_of_nat n.
Proof.
  unfold is_char. intros H. apply Nat.eqb_eq in H.
  now rewrite <- H, ascii_nat_embedding.
Qed.

Lemma FC_letter (c : ascii) :
  existsb (Ascii.eqb (lower c)) (list_ascii_of_string "aefinty") = true -> FC c.
Proof. unfold FC, float_char. now intros ->. Qed.

Lemma FC_space (c : ascii) : is_space c = true -> FC c.
Proof. unfold FC, float_char. intros ->. now rewrite !orb_true_r. Qed.

Lemma FC_digit (c : ascii) : is_digit c = true -> FC c.
Proof. unfold FC, float_char. intros ->. now rewrite !orb_true_r. Qed.

Lemma FC_underscore (c : ascii) : is_underscore c = true -> FC c.
Proof. unfold FC, float_char. intros ->. now rewrite !orb_true_r. Qed.

Lemma FC_plus (c : ascii) : is_plus c = true -> FC c.
Proof. unfold FC, float_char. intros ->. now rewrite !orb_true_r. Qed.

Lemma FC_minus (c : ascii) : is_minus c = true -> FC c.
Proof. unfold FC, float_char. intros ->. now rewrite !orb_true_r. Qed.

Lemma FC_dot (c : ascii) : is_dot c = true -> FC c.
Proof. unfold FC, float_char. intros ->. now rewrite !orb_true_r. Qed.

Lemma FC_e (c : ascii) : is_e c = true -> FC c.
Proof.
  unfold is_e. intros H. apply is_char_eq in H.
  apply FC_letter. now rewrite H.
Qed.

Lemma read_sign_FC (l : list ascii) :
  Forall FC (snd (read_sign l)) -> Forall FC l.
Proof.
  destruct (read_sign_spec l) as [E | (c & E & [M|Q])].
  - now rewrite E.
  - intros H. rewrite E. constructor; [now apply FC_minus | exact H].
  - intros H. rewrite E. constructor; [now apply FC_plus | exact H].
Qed.

Lemma take_digits_FC (l : list ascii) :
  Forall FC (snd (take_digits l)) -> Forall FC l.
Proof.
  destruct (take_digits_spec l) as [E D]. intros H.
  rewrite E. apply Forall_app. split; [|exact H].
  eapply Forall_impl; [|exact D]. exact FC_digit.
Qed.

(** The exponent part, from the mark on. *)
Lemma exponent_FC (c : ascii) (r : list ascii) :
  is_e c = true ->
  (let '(_, r1) := read_sign r in snd (take_digits r1)) = [] ->
  Forall FC (c :: r).
Proof.
  intros E H. constructor; [now apply FC_e|].
  apply read_sign_FC. destruct (read_sign r) as [eneg r1]. cbn [snd].
  apply take_digits_FC. rewrite H. constructor.
Qed.

Lemma parse_decimal_tail_FC {A : Type} (d : list ascii) (l3 : list ascii)
      (k1 : option A) (k2 : bool -> list ascii -> option A) (v : A) :
  match d with
  | [] => None
  | _ :: _ =>
      match l3 with
      | [] => k1
      | c :: r =>
          if is_e c then
            let '(eneg, r1) := read_sign r in
            match take_digits r1 with
            | ((_ :: _) as ed, []) => k2 eneg ed
            | _ => None
            end
          else None
      end
  end = Some v ->
  Forall FC l3.
Proof.
  destruct d as [|d0 d]; [discriminate|].
  destruct l3 as [|c r]; [constructor|].
  destruct (is_e c) eqn:E; [|discriminate].
  intros H. apply exponent_FC; [exact E|].
  destruct (read_sign r) as [eneg r1].
  destruct (take_digits r1) as [ed rest]. cbn [snd].
  destruct ed; [discriminate|]. now destruct rest.
Qed.

Lemma parse_decimal_FC (l : list ascii) (v : bool * Z * Z) :
  parse_decimal l = Some v -> Forall FC l.
Proof.
  unfold parse_decimal. intros H.
  apply read_sign_FC. destruct (read_sign l) as [neg l1]. cbn [snd].
  apply take_digits_FC. destruct (take_digits l1) as [ip l2]. cbn [snd].
  destruct l2 as [|c r].
  - constructor.
  - destruct (is_dot c) eqn:D.
    + constructor; [now apply FC_dot|].
      apply take_digits_FC. destruct (take_digits r) as [fp l3]. cbn [snd].
      exact (parse_decimal_tail_FC _ _ _ _ _ H).
    + destruct (ip ++ []); [discriminate|].
      destruct (is_e c) eqn:E; [|discriminate].
      apply exponent_FC; [exact E|].
      destruct (read_sign r) as [eneg r1].
      destruct (take_digits r1) as [ed rest]. cbn [snd].
      destruct ed; [discriminate|]. now destruct rest.
Qed.

Lemma lower_word_FC (r : list ascii) (w : string) :
  (string_of_list_ascii (map lower r) =? w)%string = true ->
  forallb (fun c => existsb (Ascii.eqb c) (list_ascii_of_string "aefinty"))
          (list_ascii_of_string w) = true ->
  Forall FC r.
Proof.
  intros E H. apply String.eqb_eq in E.
  apply (f_equal list_ascii_of_string) in E.
  rewrite list_ascii_of_string_of_list_ascii in E.
  rewrite <- E in H. rewrite forallb_forall in H.
  apply Forall_forall. intros c Hc. apply FC_letter, H.
  now apply in_map.
Qed.

Lemma parse_inf_or_nan_FC (l : list ascii) (x : float) :
  parse_inf_or_nan l = Some x -> Forall FC l.
Proof.
  unfold parse_inf_or_nan. intros H.
  apply read_sign_FC. destruct (read_sign l) as [neg r]. cbn [snd].
  destruct (string_of_list_ascii (map lower r) =? "inf")%string eqn:E1;
    [now apply (lower_word_FC r "inf")|].
  destruct (string_of_list_ascii (map lower r) =? "infinity")%string eqn:E2;
    [now apply (lower_word_FC r "infinity")|].
  destruct (string_of_list_ascii (map lower r) =? "nan")%string eqn:E3;
    [now apply (lower_word_FC r "nan")|].
  discriminate H.
Qed.

(** Every character of a text that [float] accepts is a [float_char]. *)
Lemma of_string_FC (s : string) (x : float) :
  of_string s = Some x -> Forall FC (list_ascii_of_string s).
Proof.
  unfold of_string. intros H.
  apply (strip_Forall_inv FC FC_space).
  destruct (strip (list_ascii_of_string s)) as [|c0 l0] eqn:S; [discriminate|].
  destruct (drop_underscores (chr 0) (c0 :: l0)) as [l'|] eqn:U; [|discriminate].
  apply (drop_underscores_Forall_inv FC FC_underscore _ _ _ U).
  destruct (parse_decimal l') as [[[neg m] e]|] eqn:D.
  - exact (parse_decimal_FC _ _ D).
  - exact (parse_inf_or_nan_FC _ _ H).
Qed.

Lemma Forall_mem (P : ascii -> Prop) (z : ascii) (s : string) :
  Forall P (list_ascii_of_string s) -> ~ P z -> mem z s = false.
Proof.
  induction s as [|a s IH]; intros H N; [reflexivity|].
  cbn [list_ascii_of_string] in H. inversion H as [|? ? Ha Hs]; subst.
  cbn [mem]. rewrite (IH Hs N), orb_false_r.
  apply Ascii.eqb_neq. intros ->. now apply N.
Qed.

Lemma mem_Forall (z : ascii) (s : string) :
  mem z s = false ->
  Forall (fun c => Ascii.eqb z c = false) (list_ascii_of_string s).
Proof.
  induction s as [|a s IH]; intros H; [constructor|].
  cbn [mem] in H. apply orb_false_iff in H as [Ha Hs].
  cbn [list_ascii_of_string]. constructor; [exact Ha | now apply IH].
Qed.

(** No accepted text holds a character that is not a [float_char]. *)
Lemma of_string_mem (z : ascii) (s : string) (x : float) :
  of_string s = Some x -> float_char z = false -> mem z s = false.
Proof.
  intros H Z. apply (Forall_mem FC).
  - exact (of_string_FC _ _ H).
  - unfold FC. now rewrite Z.
Qed.

(** *** Signs *)

Lemma binary_round_aux_sign (mx ex : Z) (lx : location) :
  sign_bit (binary_round_aux prec emax false mx ex lx) = false.
Proof.
  unfold binary_round_aux.
  destruct (shr_fexp prec emax mx ex lx) as [mrs1 e1].
  destruct (shr_fexp prec emax _ e1 loc_Exact) as [mrs2 e2].
  destruct (shr_m mrs2); [reflexivity| |reflexivity].
  now destruct (Z.leb _ _).
Qed.

Lemma binary_round_sign (mx : positive) (ex : Z) :
  sign_bit (binary_round prec emax false mx ex) = false.
Proof.
  unfold binary_round. destruct (shl_align _ _ _) as [mz ez].
  apply binary_round_aux_sign.
Qed.

Lemma of_int_sign (n : Z) : (0 <= n)%Z -> sign_bit (of_int n) = false.
Proof.
  intros H. unfold of_int, binary_normalize.
  destruct n as [|n|n]; [reflexivity | apply binary_round_sign | lia].
Qed.

Lemma mul_sign (x y : float) :
  sign_bit x = false -> sign_bit y = false -> sign_bit (mul x y) = false.
Proof.
  destruct x, y; cbn [sign_bit]; intros Hx Hy; subst; try reflexivity.
  apply binary_round_aux_sign.
Qed.

Lemma of_decimal_sign (m e : Z) : sign_bit (of_decimal false m e) = false.
Proof.
  unfold of_decimal. destruct m as [|m|m]; try reflexivity.
  destruct (0 <=? e)%Z eqn:E.
  - apply Z.leb_le in E.
    pose proof (Z.pow_nonneg 10 e ltac:(lia)) as P.
    unfold binary_normalize.
    destruct (Z.pos m * 10 ^ e)%Z eqn:M;
      [reflexivity | apply binary_round_sign | lia].
  - destruct (SFdiv_core_binary _ _ _ _ _ _) as [[q e'] l].
    apply binary_round_aux_sign.
Qed.

Lemma parse_decimal_sign (l : list ascii) (neg : bool) (m e : Z) :
  Forall no_minus l -> parse_decimal l = Some (neg, m, e) -> neg = false.
Proof.
  intros HF. unfold parse_decimal.
  pose proof (read_sign_minus l HF) as S.
  destruct (read_sign l) as [neg' l1]. cbn [fst] in S. subst neg'.
  destruct (take_digits l1) as [ip l2].
  assert (forall fp l3,
    match ip ++ fp with
    | [] => None
    | _ :: _ =>
        match l3 with
        | [] => Some (false, digits_value (ip ++ fp),
                      (- Z.of_nat (List.length fp))%Z)
        | c :: r =>
            if is_e c then
              let '(eneg, r1) := read_sign r in
              match take_digits r1 with
              | ((_ :: _) as ed, []) =>
                  Some (false, digits_value (ip ++ fp),
                        ((if eneg then - digits_value ed else digits_value ed)
                         - Z.of_nat (List.length fp))%Z)
              | _ => None
              end
            else None
        end
    end = Some (neg, m, e) -> neg = false) as T.
  { intros fp l3 H. destruct (ip ++ fp); [discriminate|].
    destruct l3 as [|c r]; [now injection H|].
    destruct (is_e c); [|discriminate].
    destruct (read_sign r) as [eneg r1].
    destruct (take_digits r1) as [ed rest].
    destruct ed; [discriminate|]. destruct rest; [|discriminate].
    now injection H. }
  destruct l2 as [|c r]; [apply (T [] [])|].
  destruct (is_dot c).
  - destruct (take_digits r) as [fp l3]. apply T.
  - apply (T [] (c :: r)).
Qed.

Lemma parse_inf_or_nan_sign (l : list ascii) (x : float) :
  Forall no_minus l -> parse_inf_or_nan l = Some x -> sign_bit x = false.
Proof.
  intros HF. unfold parse_inf_or_nan.
  pose proof (read_sign_minus l HF) as S.
  destruct (read_sign l) as [neg r]. cbn [fst] in S. subst neg.
  destruct (_ || _); [now intros [= <-]|].
  destruct (_ =? _)%string; [now intros [= <-] | discriminate].
Qed.

Lemma mem_no_minus (s : string) :
  mem minus s = false -> Forall no_minus (list_ascii_of_string s).
Proof.
  intros H. eapply Forall_impl; [|exact (mem_Forall _ _ H)].
  intros c Hc. unfold no_minus. destruct (is_minus c) eqn:M; [|reflexivity].
  apply is_char_eq in M. subst c. discriminate Hc.
Qed.

(** Without a minus sign in the text, [float] gives no negative number. *)
Lemma of_string_sign (s : string) (x : float) :
  mem minus s = false -> of_string s = Some x -> sign_bit x = false.
Proof.
  intros Hm. unfold of_string.
  pose proof (strip_Forall _ _ (mem_no_minus s Hm)) as HS.
  destruct (strip (list_ascii_of_string s)) as [|c0 l0]; [discriminate|].
  destruct (drop_underscores (chr 0) (c0 :: l0)) as [l'|] eqn:U; [|discriminate].
  pose proof (drop_underscores_Forall _ _ _ _ U HS) as HU.
  destruct (parse_decimal l') as [[[neg m] e]|] eqn:D.
  - intros [= <-]. rewrite (parse_decimal_sign _ _ _ _ HU D).
    apply of_decimal_sign.
  - now apply parse_inf_or_nan_sign.
Qed.

Lemma sign_bit_not_below (x : float) :
  sign_bit x = false -> ltb x (S754_zero false) = false.
Proof. destruct x; cbn [sign_bit]; intros H; subst; reflexivity. Qed.

End PyFloatFacts.

(** ** Marked and bare numbers *)

Import PyFloatFacts.

Lemma first_marker_after_separator (ms : list marker) (z : ascii)
      (p t : string) :
  (forall m, In m ms ->
             mem " " (looked_for m) = false /\ mem z (looked_for m) = true) ->
  mem z p = false ->
  first_marker ms (p ++ String " " t) = first_marker ms t.
Proof.
  intros Hms Hp. unfold first_marker.
  induction ms as [|m ms IH]; [reflexivity|].
  cbn [find].
  destruct (Hms m (or_introl eq_refl)) as [Hb Hz].
  rewrite (contains_after_separator " " z _ p t Hb Hz Hp).
  destruct (contains (looked_for m) t); [reflexivity|].
  apply IH. intros m' Hm'. apply Hms. now right.
Qed.

Lemma first_marker_none (ms : list marker) (z : ascii) (t : string) :
  (forall m, In m ms -> mem z (looked_for m) = true) ->
  mem z t = false ->
  first_marker ms t = None.
Proof.
  intros Hms Ht. unfold first_marker.
  induction ms as [|m ms IH]; [reflexivity|].
  cbn [find].
  rewrite (contains_mem z _ t (Hms m (or_introl eq_refl)) Ht).
  apply IH. intros m' Hm'. apply Hms. now right.
Qed.

Lemma duration_markers_chars (m : marker) :
  In m duration_markers ->
  mem " " (looked_for m) = false /\ mem "s" (looked_for m) = true.
Proof. intros [<-|[<-|[<-|[]]]]; now split. Qed.

Lemma memory_markers_chars (m : marker) :
  In m memory_markers ->
  mem " " (looked_for m) = false /\ mem "B" (looked_for m) = true.
Proof. intros [<-|[<-|[<-|[]]]]; now split. Qed.

(** A number, a space and a marker, once cleaned: the marker found is the
    first of the list that occurs in the marker text itself. *)
Lemma normalize_marked (ms : list marker) (z : ascii) (s p mk : string)
      (x : PyFloat.float) :
  (forall m, In m ms ->
             mem " " (looked_for m) = false /\ mem z (looked_for m) = true) ->
  PyFloat.float_char z = false ->
  PyFloat.of_string p = Some x ->
  clean s = p ++ String " " mk ->
  normalize ms (PyText s)
  = match first_marker ms mk with
    | Some m =>
        v <- float (replace (stripped m) EmptyString (p ++ String " " mk)) ;;
        Ret (PyFloat (fold_left times (factors m) v))
    | None => float_or_zero (p ++ String " " mk)
    end.
Proof.
  intros Hms Hz Hx Hs. unfold normalize.
  destruct (s =? EmptyString) eqn:E.
  - apply String.eqb_eq in E. subst s. destruct p; discriminate Hs.
  - rewrite Hs, (first_marker_after_separator ms z); [reflexivity | exact Hms |].
    exact (of_string_mem z p x Hx Hz).
Qed.

Lemma float_stripped (z : ascii) (p mk : string) (x : PyFloat.float) :
  mem " " mk = false -> mem z mk = true ->
  PyFloat.float_char z = false ->
  PyFloat.of_string p = Some x ->
  float (replace (String " " mk) EmptyString (p ++ String " " mk)) = Ret x.
Proof.
  intros Hb Hm Hz Hx.
  rewrite (replace_suffix " " z mk p Hb Hm (of_string_mem z p x Hx Hz)).
  unfold float. now rewrite Hx.
Qed.

Ltac reduce_first_marker :=
  match goal with
  | |- context [first_marker ?ms ?mk] =>
      let fm := fresh "fm" in
      set (fm := first_marker ms mk); vm_compute in fm; subst fm;
      cbv beta iota; cbn [stripped factors fold_left]
  end.

Ltac marked_time mk Hx Hs :=
  rewrite parse_time_normalize,
    (normalize_marked _ "s" _ _ mk _ duration_markers_chars eq_refl Hx Hs);
  reduce_first_marker;
  rewrite (float_stripped "s" _ mk _ eq_refl eq_refl eq_refl Hx);
  reflexivity.

Ltac marked_memory mk Hx Hs :=
  rewrite parse_memory_normalize,
    (normalize_marked _ "B" _ _ mk _ memory_markers_chars eq_refl Hx Hs);
  reduce_first_marker;
  rewrite (float_stripped "B" _ mk _ eq_refl eq_refl eq_refl Hx);
  reflexivity.

(** C1, as amended: when the cleaned text is a number accepted by [float],
    one space and a unit marker, the normaliser returns that number times
    the factor of the marker: 1000 for ms, 1 for μs, 1000000 for s, 1 for
    KB, 1024 for MB, 1024 twice for GB. *)
Theorem marker_scaling (p : string) (x : PyFloat.float) :
  PyFloat.of_string p = Some x ->
  (forall s, clean s = p ++ " ms" ->
     parse_time_to_microseconds (PyText s) = Ret (PyFloat (times x 1000)))
  /\ (forall s, clean s = p ++ " μs" ->
     parse_time_to_microseconds (PyText s) = Ret (PyFloat x))
  /\ (forall s, clean s = p ++ " s" ->
     parse_time_to_microseconds (PyText s) = Ret (PyFloat (times x 1000000)))
  /\ (forall s, clean s = p ++ " KB" ->
     parse_memory (PyText s) = Ret (PyFloat x))
  /\ (forall s, clean s = p ++ " MB" ->
     parse_memory (PyText s) = Ret (PyFloat (times x 1024)))
  /\ (forall s, clean s = p ++ " GB" ->
     parse_memory (PyText s) = Ret (PyFloat (times (times x 1024) 1024))).
Proof.
  intros Hx.
  repeat split; intros s Hs.
  - marked_time "ms" Hx Hs.
  - marked_time "μs" Hx Hs.
  - marked_time "s" Hx Hs.
  - marked_memory "KB" Hx Hs.
  - marked_memory "MB" Hx Hs.
  - marked_memory "GB" Hx Hs.
Qed.

Lemma marker_scaling_witness :
  parse_time_to_microseconds (PyText "1,234 ms")
  = Ret (PyFloat (PyFloat.of_int 1234000))
  /\ parse_time_to_microseconds (PyText "150 μs")
     = Ret (PyFloat (PyFloat.of_int 150))
  /\ parse_memory (PyText "2 MB") = Ret (PyFloat (PyFloat.of_int 2048))
  /\ parse_memory (PyText "1.5 GB") = Ret (PyFloat (PyFloat.of_int 1572864)).
Proof.
  split; [|split; [|split]].
  - destruct (marker_scaling "1234" (PyFloat.of_int 1234) eq_refl)
      as (H & _).
    exact (H "1,234 ms" eq_refl).
  - destruct (marker_scaling "150" (PyFloat.of_int 150) eq_refl)
      as (_ & H & _).
    exact (H "150 μs" eq_refl).
  - destruct (marker_scaling "2" (PyFloat.of_int 2) eq_refl)
      as (_ & _ & _ & _ & H & _).
    exact (H "2 MB" eq_refl).
  - destruct (marker_scaling "1.5" _ eq_refl) as (_ & _ & _ & _ & _ & H).
    exact (H "1.5 GB" eq_refl).
Defined.

(** C1 fails as stated: the text 1 ms2 holds the millisecond marker, the
    marker is taken out of the middle and the digits around it are read
    together: the result is 12000, which is 1000 times no number that
    starts the text. *)
Lemma marker_scaling_counterexample :
  ~ (forall s, contains "ms" (clean s) = true ->
       exists p x,
         prefix p s = true /\ PyFloat.of_string p = Some x
         /\ parse_time_to_microseconds (PyText s)
            = Ret (PyFloat (times x 1000))).
Proof.
  intros H.
  destruct (H "1 ms2" eq_refl) as (p & x & Hp & Hx & E).
  vm_compute in E.
  repeat
    (destruct p as [|? p];
     [ vm_compute in Hx;
       first [ discriminate Hx
             | injection Hx as <-; vm_compute in E; discriminate E ]
     | cbn [prefix] in Hp;
       match type of Hp with
       | match ascii_dec ?a ?b with _ => _ end = true =>
           destruct (ascii_dec a b) as [->|]; [|discriminate Hp]
       | _ => discriminate Hp
       end ]).
Qed.

(** C7: a text that [float] reads as the number [x] holds no marker, and
    both normalisers return [x] itself. *)
Theorem bare_number_unchanged (s : string) (x : PyFloat.float) :
  PyFloat.of_string s = Some x ->
  parse_time_to_microseconds (PyText s) = Ret (PyFloat x)
  /\ parse_memory (PyText s) = Ret (PyFloat x).
Proof.
  intros Hx.
  assert (clean s = s) as Hc.
  { apply clean_absent; now apply (of_string_mem _ s x Hx). }
  assert ((s =? EmptyString) = false) as Hn.
  { apply String.eqb_neq. intros ->. discriminate Hx. }
  rewrite parse_time_normalize, parse_memory_normalize.
  unfold normalize. rewrite Hn, Hc.
  rewrite (first_marker_none duration_markers "s" s),
          (first_marker_none memory_markers "B" s).
  - unfold float_or_zero, float. now rewrite Hx.
  - intros m Hm. apply (memory_markers_chars m Hm).
  - now apply (of_string_mem _ s x Hx).
  - intros m Hm. apply (duration_markers_chars m Hm).
  - now apply (of_string_mem _ s x Hx).
Qed.

Lemma bare_number_unchanged_witness :
  parse_time_to_microseconds (PyText "1234000.0")
  = Ret (PyFloat (PyFloat.of_int 1234000))
  /\ parse_memory (PyText "2048.0") = Ret (PyFloat (PyFloat.of_int 2048)).
Proof.
  split.
  - exact (proj1 (bare_number_unchanged "1234000.0" _ eq_refl)).
  - exact (proj2 (bare_number_unchanged "2048.0" _ eq_refl)).
Defined.

(** ** Signs of the results *)

Lemma times_sign (x : PyFloat.float) (n : Z) :
  (0 <= n)%Z -> PyFloat.sign_bit x = false ->
  PyFloat.sign_bit (times x n) = false.
Proof.
  intros Hn Hx. apply mul_sign; [exact Hx | now apply of_int_sign].
Qed.

Lemma fold_times_sign (ns : list Z) (x : PyFloat.float) :
  Forall (fun n => 0 <= n)%Z ns -> PyFloat.sign_bit x = false ->
  PyFloat.sign_bit (fold_left times ns x) = false.
Proof.
  intros H. revert x. induction H as [|n ns Hn _ IH]; intros x Hx; [exact Hx|].
  cbn [fold_left]. apply IH. now apply times_sign.
Qed.

Lemma float_sign (s : string) (x : PyFloat.float) :
  mem minus s = false -> float s = Ret x -> PyFloat.sign_bit x = false.
Proof.
  intros Hm. unfold float.
  destruct (PyFloat.of_string s) as [f|] eqn:E; [|discriminate].
  intros [= <-]. exact (of_string_sign s f Hm E).
Qed.

Lemma normalize_not_below (ms : list marker) (x : cell) (v : pyval) :
  (forall m, In m ms ->
     stripped m <> EmptyString /\ Forall (fun n => 0 <= n)%Z (factors m)) ->
  has_minus x = false ->
  normalize ms x = Ret v ->
  below_zero v = false.
Proof.
  intros Hms Hm. unfold normalize.
  destruct x as [| |s]; try (intros [= <-]; reflexivity).
  cbn [has_minus] in Hm.
  destruct (s =? EmptyString); [intros [= <-]; reflexivity|].
  pose proof (clean_mem minus s Hm) as Hc.
  destruct (first_marker ms (clean s)) as [m|] eqn:F.
  - apply find_some in F as [Hin _].
    destruct (Hms m Hin) as [Hst Hf].
    destruct (float _) as [f|e] eqn:E; [|discriminate].
    cbn [bind]. intros [= <-]. cbn [below_zero].
    apply sign_bit_not_below, fold_times_sign; [exact Hf|].
    exact (float_sign _ _ (replace_mem minus _ _ Hst Hc) E).
  - unfold float_or_zero.
    destruct (float (clean s)) as [f|e] eqn:E; intros [= <-]; [|reflexivity].
    cbn [below_zero]. apply sign_bit_not_below.
    exact (float_sign _ _ Hc E).
Qed.

Lemma duration_markers_factors (m : marker) :
  In m duration_markers ->
  stripped m <> EmptyString /\ Forall (fun n => 0 <= n)%Z (factors m).
Proof.
  intros [<-|[<-|[<-|[]]]]; (split; [discriminate|]);
    repeat constructor; discriminate.
Qed.

Lemma memory_markers_factors (m : marker) :
  In m memory_markers ->
  stripped m <> EmptyString /\ Forall (fun n => 0 <= n)%Z (factors m).
Proof.
  intros [<-|[<-|[<-|[]]]]; (split; [discriminate|]);
    repeat constructor; discriminate.
Qed.

(** C4, as amended: on an input without a minus sign, a value returned by
    either normaliser is never below zero. *)
Theorem never_below_zero (x : cell) (v : pyval) :
  has_minus x = false ->
  (parse_time_to_microseconds x = Ret v -> below_zero v = false)
  /\ (parse_memory x = Ret v -> below_zero v = false).
Proof.
  intros Hm. rewrite parse_time_normalize, parse_memory_normalize. split.
  - exact (normalize_not_below _ x v duration_markers_factors Hm).
  - exact (normalize_not_below _ x v memory_markers_factors Hm).
Qed.

Lemma never_below_zero_witness :
  below_zero (PyFloat (PyFloat.of_int 1234000)) = false.
Proof.
  exact (proj1 (never_below_zero (PyText "1,234 ms")
                  (PyFloat (PyFloat.of_int 1234000)) eq_refl) eq_refl).
Defined.

(** C4 fails as stated: a minus sign in the text goes through to the
    result, with a marker or without. *)
Lemma never_below_zero_counterexample :
  (exists v, parse_time_to_microseconds (PyText "-5 ms") = Ret v
             /\ below_zero v = true)
  /\ (exists v, parse_memory (PyText "-1") = Ret v /\ below_zero v = true).
Proof.
  split; eexists; split; reflexivity.
Qed.

(** ** The comparison table *)

Section Tables.

Local Open Scope list_scope.

Lemma apply_returns {A B : Type} (f : A -> result B) (col : list A) :
  forallb (fun x => returns (f x)) col = true ->
  exists ys, apply f col = Ret ys /\ Forall2 (fun x y => f x = Ret y) col ys.
Proof.
  induction col as [|x col IH]; intros H.
  - exists []. now split; [|constructor].
  - cbn [forallb] in H. apply andb_true_iff in H as [Hx Hc].
    destruct (IH Hc) as (ys & Hy & F).
    destruct (f x) as [y|e] eqn:E; [|discriminate Hx].
    exists (y :: ys). cbn [apply]. rewrite E, Hy. cbn [bind].
    split; [reflexivity | now constructor].
Qed.

Lemma with_columns_normalized (df : DataFrame) (ts ms : list pyval) :
  Forall2 (fun x y => parse_time_to_microseconds x = Ret y) (map Mean df) ts ->
  Forall2 (fun x y => parse_memory x = Ret y) (map Allocated df) ms ->
  Forall2 normalized_from df (with_columns df ts ms).
Proof.
  revert ts ms. induction df as [|r df IH]; intros ts ms Ht Hm.
  - constructor.
  - cbn [map] in Ht, Hm.
    inversion Ht as [|? t ? ts' Ht1 Ht2]; subst.
    inversion Hm as [|? m ? ms' Hm1 Hm2]; subst.
    cbn [with_columns]. constructor; [|now apply IH].
    now repeat split.
Qed.

(** A frame whose cells all normalise gets its two columns. *)
Lemma add_columns_returns (df : DataFrame) :
  normalizable df = true ->
  exists ndf, add_columns df = Ret ndf /\ Forall2 normalized_from df ndf.
Proof.
  intros H. unfold normalizable in H.
  assert (forallb (fun x => returns (parse_time_to_microseconds x))
                  (map Mean df) = true
          /\ forallb (fun x => returns (parse_memory x))
                     (map Allocated df) = true) as [H1 H2].
  { induction df as [|r df IH]; [now split|].
    cbn [forallb map] in H |- *.
    apply andb_true_iff in H as [Hr Hd]. apply andb_true_iff in Hr as [Ht Hm].
    destruct (IH Hd) as [I1 I2]. now rewrite Ht, Hm, I1, I2. }
  destruct (apply_returns _ _ H1) as (ts & Et & Ft).
  destruct (apply_returns _ _ H2) as (ms & Em & Fm).
  exists (with_columns df ts ms). unfold add_columns.
  rewrite Et, Em. cbn [bind].
  split; [reflexivity | now apply with_columns_normalized].
Qed.

Lemma select_normalized (op : string) (df : DataFrame) (ndf : list nrow) :
  Forall2 normalized_from df ndf ->
  Forall2 normalized_from (rows_of op df) (select op ndf).
Proof.
  induction 1 as [|r n df ndf [Hs Hv] _ IH]; [constructor|].
  unfold rows_of, select in *. cbn [filter]. rewrite Hs.
  destruct (method_is op r); [constructor; [now split | exact IH] | exact IH].
Qed.

(** The record of a technology for an operation comes from the first row
    of that operation in its source table, if there is one. *)
Lemma first_record_source (op tech : string) (df : DataFrame)
      (ndf : list nrow) :
  Forall2 normalized_from df ndf ->
  match rows_of op df with
  | [] => first_record op tech (select op ndf) = []
  | r :: _ =>
      exists v1 v2,
        parse_time_to_microseconds (Mean r) = Ret v1
        /\ parse_memory (Allocated r) = Ret v2
        /\ first_record op tech (select op ndf)
           = [{| Operation := op; Technology := tech;
                 Time_us := v1; Memory_KB := v2 |}]
  end.
Proof.
  intros H. pose proof (select_normalized op _ _ H) as S.
  destruct S as [|r n rs ns (_ & Ht & Hm) _]; [reflexivity|].
  exists (Mean_us n), (Allocated_KB n). now repeat split.
Qed.

(** Records of the loop body carry the operation of the iteration. *)
Lemma op_records_operation (ef adonet dapper : list nrow) (op : string)
      (r : record) :
  In r (op_records ef adonet dapper op) -> Operation r = op.
Proof.
  unfold op_records. rewrite !in_app_iff.
  intros [H|[H|H]]; revert H;
    match goal with
    | |- In _ (first_record _ _ ?l) -> _ => destruct l
    end; cbn [first_record In]; intros [<-|[]] || intros []; reflexivity.
Qed.

Lemma filter_all {A : Type} (f : A -> bool) (l : list A) :
  (forall x, In x l -> f x = true) -> filter f l = l.
Proof.
  induction l as [|a l IH]; intros H; [reflexivity|].
  cbn [filter]. rewrite (H a (or_introl eq_refl)).
  f_equal. apply IH. intros x Hx. apply H. now right.
Qed.

Lemma filter_none {A : Type} (f : A -> bool) (l : list A) :
  (forall x, In x l -> f x = false) -> filter f l = [].
Proof.
  induction l as [|a l IH]; intros H; [reflexivity|].
  cbn [filter]. rewrite (H a (or_introl eq_refl)).
  apply IH. intros x Hx. apply H. now right.
Qed.

(** Over operations without repetition, the records of one operation are
    those of its own iteration. *)
Lemma filter_flat_map_operation (F : string -> list record)
      (ops : list string) (op : string) :
  (forall o r, In r (F o) -> Operation r = o) ->
  NoDup ops -> In op ops ->
  filter (for_operation op) (flat_map F ops) = F op.
Proof.
  intros HF ND. induction ND as [|o ops Ho ND IH]; intros Hin; [easy|].
  cbn [flat_map]. rewrite filter_app.
  destruct (String.eqb_spec o op) as [->|N].
  - rewrite filter_all.
    + assert (filter (for_operation op) (flat_map F ops) = []) as ->
          by (apply filter_none; intros r Hr;
              apply in_flat_map in Hr as (o' & Ho' & Hr);
              apply HF in Hr; unfold for_operation; rewrite Hr;
              apply String.eqb_neq; now intros ->).
      apply app_nil_r.
    + intros r Hr. unfold for_operation.
      rewrite (HF _ _ Hr). apply String.eqb_refl.
  - rewrite filter_none.
    + destruct Hin as [E|Hin]; [now elim N | now apply IH].
    + intros r Hr. unfold for_operation.
      rewrite (HF _ _ Hr). now apply String.eqb_neq.
Qed.

Lemma operations_NoDup : NoDup operations.
Proof.
  unfold operations.
  repeat (constructor;
          [cbn [In]; intros H;
           repeat (destruct H as [H|H]; [discriminate H|]); exact H|]).
  constructor.
Qed.

Lemma filter_pair (op : string) (t : technology) (l : list record) :
  filter (for_pair op t) l
  = filter (for_technology t) (filter (for_operation op) l).
Proof.
  induction l as [|r l IH]; [reflexivity|].
  unfold for_pair in *. cbn [filter].
  destruct (for_operation op r); cbn [andb filter]; [|exact IH].
  destruct (for_technology t r); now rewrite IH.
Qed.

(** The frames of the three technologies. *)
Lemma op_records_technology (ef adonet dapper : list nrow) (op : string)
      (t : technology) :
  filter (for_technology t) (op_records ef adonet dapper op)
  = first_record op (tech_name t)
      (select op match t with
                 | EntityFramework => ef
                 | AdoNet => adonet
                 | Dapper => dapper
                 end).
Proof.
  unfold op_records.
  destruct t;
    destruct (select op ef), (select op adonet), (select op dapper);
    reflexivity.
Qed.

(** When every cell normalises, the table is built, and its records for an
    operation of the list are the first records of the three sources. *)
Lemma prepare_returns (d : data) :
  normalizable (ef_antes d) && normalizable (adonet_antes d)
  && normalizable (dapper_antes d) = true ->
  exists (T : list record) (fr : technology -> list nrow),
    prepare_crud_comparison_data d = Ret T
    /\ (forall t, Forall2 normalized_from (source d t) (fr t))
    /\ (forall op, In op operations ->
          filter (for_operation op) T
          = op_records (fr EntityFramework) (fr AdoNet) (fr Dapper) op)
    /\ (forall op t, In op operations ->
          filter (for_pair op t) T
          = first_record op (tech_name t) (select op (fr t))).
Proof.
  intros H. apply andb_true_iff in H as [H H3].
  apply andb_true_iff in H as [H1 H2].
  destruct (add_columns_returns _ H1) as (ef & E1 & F1).
  destruct (add_columns_returns _ H2) as (ado & E2 & F2).
  destruct (add_columns_returns _ H3) as (dap & E3 & F3).
  exists (flat_map (op_records ef ado dap) operations).
  exists (fun t => match t with
                   | EntityFramework => ef
                   | AdoNet => ado
                   | Dapper => dap
                   end).
  assert (forall op, In op operations ->
            filter (for_operation op)
                   (flat_map (op_records ef ado dap) operations)
            = op_records ef ado dap op) as HO.
  { intros op Hop. apply filter_flat_map_operation;
      [apply op_records_operation | apply operations_NoDup | exact Hop]. }
  repeat split.
  - unfold prepare_crud_comparison_data. now rewrite E1, E2, E3.
  - now intros [].
  - exact HO.
  - intros op t Hop.
    rewrite filter_pair, (HO op Hop), op_records_technology.
    now destruct t.
Qed.

End Tables.

(** ** Claims on the comparison table *)

(** C8, as amended: for an operation of the fixed list whose rows are in
    the source table of one technology only, and when every cell of the
    three tables normalises, the table is built and holds one record for
    the operation: that of the technology, with the normalised Mean and
    Allocated of the source row; the other technologies add none. *)
Theorem single_technology_record (d : data) (op : string) (t : technology)
        (r : row) (rest : list row) :
  In op operations ->
  all_normalizable d = true ->
  rows_of op (source d t) = r :: rest ->
  (forall t', t' <> t -> rows_of op (source d t') = []) ->
  exists T v1 v2,
    prepare_crud_comparison_data d = Ret T
    /\ parse_time_to_microseconds (Mean r) = Ret v1
    /\ parse_memory (Allocated r) = Ret v2
    /\ filter (for_operation op) T
       = [{| Operation := op; Technology := tech_name t;
             Time_us := v1; Memory_KB := v2 |}].
Proof.
  intros Hop Hn Hr Ho.
  destruct (prepare_returns d Hn) as (T & fr & HT & HF & HO & _).
  pose proof (first_record_source op (tech_name EntityFramework) _ _
                (HF EntityFramework)) as A1.
  pose proof (first_record_source op (tech_name AdoNet) _ _ (HF AdoNet)) as A2.
  pose proof (first_record_source op (tech_name Dapper) _ _ (HF Dapper)) as A3.
  exists T. rewrite (HO op Hop). unfold op_records.
  cbn [tech_name] in A1, A2, A3.
  destruct t.
  - rewrite Hr in A1. destruct A1 as (v1 & v2 & Ht & Hm & ->).
    rewrite (Ho AdoNet) in A2 by discriminate.
    rewrite (Ho Dapper) in A3 by discriminate.
    rewrite A2, A3. now exists v1, v2.
  - rewrite Hr in A2. destruct A2 as (v1 & v2 & Ht & Hm & ->).
    rewrite (Ho EntityFramework) in A1 by discriminate.
    rewrite (Ho Dapper) in A3 by discriminate.
    rewrite A1, A3. now exists v1, v2.
  - rewrite Hr in A3. destruct A3 as (v1 & v2 & Ht & Hm & ->).
    rewrite (Ho EntityFramework) in A1 by discriminate.
    rewrite (Ho AdoNet) in A2 by discriminate.
    rewrite A1, A2. now exists v1, v2.
Qed.

Lemma single_technology_record_witness :
  exists T v1 v2,
    prepare_crud_comparison_data crud_load = Ret T
    /\ parse_time_to_microseconds (PyText "150 μs") = Ret v1
    /\ parse_memory (PyText "1 KB") = Ret v2
    /\ filter (for_operation "ReadOrder") T
       = [{| Operation := "ReadOrder"; Technology := "ADO.NET";
             Time_us := v1; Memory_KB := v2 |}].
Proof.
  apply (single_technology_record crud_load "ReadOrder" AdoNet
           (text_row "ReadOrder" "150 μs" "1 KB") []).
  - do 9 right. left. reflexivity.
  - reflexivity.
  - reflexivity.
  - intros [| |] N; [reflexivity | now elim N | reflexivity].
Defined.

(** C8 fails as stated: a method found in one source table only, but
    absent from the fixed list of operations, gets no record at all. *)
Lemma single_technology_record_counterexample :
  rows_of "GetOrder" (source unlisted_load EntityFramework)
  = [text_row "GetOrder" "1 ms" "1 KB"]
  /\ rows_of "GetOrder" (source unlisted_load AdoNet) = []
  /\ rows_of "GetOrder" (source unlisted_load Dapper) = []
  /\ prepare_crud_comparison_data unlisted_load = Ret [].
Proof. repeat split. Qed.




(** ** Further properties of the normalisers *)

Lemma replace_no_match (old new s : string) :
  old <> EmptyString -> contains old s = false -> replace old new s = s.
Proof.
  intros Ho. unfold replace. destruct old as [|a old]; [now elim Ho|].
  induction s as [|c s IH]; intros H; [reflexivity|].
  rewrite contains_cons in H. apply orb_false_iff in H as [Hp Hc].
  cbn [replace_scan]. rewrite Hp. f_equal. now apply IH.
Qed.

(** A text with a character that is no [float_char] is rejected. *)
Lemma float_rejects (z : ascii) (s : string) :
  PyFloat.float_char z = false -> mem z s = true ->
  float s = Raise ValueError.
Proof.
  intros Hz Hm. unfold float.
  destruct (PyFloat.of_string s) as [x|] eqn:E; [|reflexivity].
  rewrite (of_string_mem z s x E Hz) in Hm. discriminate.
Qed.

Lemma float_or_zero_returns (s : string) : returns (float_or_zero s) = true.
Proof. unfold float_or_zero. now destruct (float s). Qed.

Lemma normalize_unmarked (ms : list marker) (z : ascii) (s : string) :
  (forall m, In m ms -> mem z (looked_for m) = true) ->
  mem z s = false ->
  normalize ms (PyText s) = float_or_zero (clean s).
Proof.
  intros Hms Hs. unfold normalize.
  destruct (s =? EmptyString) eqn:E.
  - apply String.eqb_eq in E. now subst s.
  - now rewrite (first_marker_none ms z (clean s) Hms (clean_mem z s Hs)).
Qed.

(** X1: a text without the letter s is never an exception for the
    duration normaliser, and a text without the letter B never one for the
    memory normaliser: the result is the number read from the cleaned
    text, or 0. *)
Theorem unmarked_text_returns (s : string) :
  (mem "s" s = false ->
   parse_time_to_microseconds (PyText s) = float_or_zero (clean s)
   /\ returns (parse_time_to_microseconds (PyText s)) = true)
  /\ (mem "B" s = false ->
      parse_memory (PyText s) = float_or_zero (clean s)
      /\ returns (parse_memory (PyText s)) = true).
Proof.
  split; intros H.
  - rewrite parse_time_normalize,
      (normalize_unmarked duration_markers "s" s
         (fun m Hm => proj2 (duration_markers_chars m Hm)) H).
    split; [reflexivity | apply float_or_zero_returns].
  - rewrite parse_memory_normalize,
      (normalize_unmarked memory_markers "B" s
         (fun m Hm => proj2 (memory_markers_chars m Hm)) H).
    split; [reflexivity | apply float_or_zero_returns].
Qed.

Lemma unmarked_text_returns_witness :
  returns (parse_time_to_microseconds (PyText "12.5 min")) = true
  /\ returns (parse_memory (PyText "1,024 bytes")) = true.
Proof.
  split.
  - exact (proj2 (proj1 (unmarked_text_returns "12.5 min") eq_refl)).
  - exact (proj2 (proj2 (unmarked_text_returns "1,024 bytes") eq_refl)).
Defined.

Lemma no_space_s_before_ns (p : string) :
  mem "s" p = false -> contains " s" (p ++ " ns") = false.
Proof.
  induction p as [|c p IH]; intros H; [reflexivity|].
  cbn [mem] in H. apply orb_false_iff in H as [Hc Hp].
  change (String c p ++ " ns") with (String c (p ++ " ns")).
  rewrite contains_cons, (IH Hp), orb_false_r.
  cbn [prefix]. destruct (ascii_dec " " c); [|reflexivity].
  destruct p as [|c' p]; [reflexivity|].
  change (String c' p ++ " ns") with (String c' (p ++ " ns")).
  cbn [prefix]. destruct (ascii_dec "s" c') as [<-|]; [|reflexivity].
  cbn [mem] in Hp. rewrite Ascii.eqb_refl in Hp. discriminate.
Qed.

(** X2: a duration in nanoseconds raises.  When the cleaned text is a
    text without the letter s followed by a space and ns, the seconds
    marker is found, nothing is stripped, and [float] raises
    [ValueError]. *)
Theorem nanoseconds_raise (s p : string) :
  clean s = p ++ " ns" ->
  mem "s" p = false ->
  parse_time_to_microseconds (PyText s) = Raise ValueError.
Proof.
  intros Hs Hp. rewrite parse_time_normalize. unfold normalize.
  destruct (s =? EmptyString) eqn:E.
  - apply String.eqb_eq in E. subst s. destruct p; discriminate Hs.
  - rewrite Hs.
    rewrite (first_marker_after_separator duration_markers "s" p "ns"
               duration_markers_chars Hp).
    reduce_first_marker.
    rewrite (replace_no_match " s" EmptyString (p ++ " ns"));
      [|discriminate | now apply no_space_s_before_ns].
    rewrite (float_rejects "s" (p ++ " ns") eq_refl); [reflexivity|].
    rewrite mem_app. apply orb_true_r.
Qed.

Lemma nanoseconds_raise_witness :
  parse_time_to_microseconds (PyText "1,250.5 ns") = Raise ValueError.
Proof.
  exact (nanoseconds_raise "1,250.5 ns" "1250.5" eq_refl eq_refl).
Defined.

(** X3: a memory size in plain bytes is read as 0.  When the cleaned text
    is a text without the letter B followed by a space and B, no marker is
    found, [float] rejects the text and the fallback returns 0. *)
Theorem bytes_read_as_zero (s p : string) :
  clean s = p ++ " B" ->
  mem "B" p = false ->
  parse_memory (PyText s) = Ret (PyInt 0).
Proof.
  intros Hs Hp. rewrite parse_memory_normalize. unfold normalize.
  destruct (s =? EmptyString) eqn:E.
  - apply String.eqb_eq in E. subst s. destruct p; discriminate Hs.
  - rewrite Hs.
    rewrite (first_marker_after_separator memory_markers "B" p "B"
               memory_markers_chars Hp).
    reduce_first_marker.
    unfold float_or_zero.
    rewrite (float_rejects "B" (p ++ " B") eq_refl); [reflexivity|].
    rewrite mem_app. apply orb_true_r.
Qed.

Lemma bytes_read_as_zero_witness :
  parse_memory (PyText "512 B") = Ret (PyInt 0).
Proof.
  exact (bytes_read_as_zero "512 B" "512" eq_refl eq_refl).
Defined.

(** ** Further properties of the CRUD table *)

Section CrudTable.

Local Open Scope list_scope.

Lemma apply_returns_iff {A B : Type} (f : A -> result B) (col : list A) :
  returns (apply f col) = forallb (fun x => returns (f x)) col.
Proof.
  induction col as [|x col IH]; [reflexivity|].
  cbn [apply forallb]. destruct (f x) as [y|e]; [|reflexivity].
  cbn [bind returns andb]. rewrite <- IH.
  now destruct (apply f col).
Qed.

Lemma normalizable_columns (df : DataFrame) :
  normalizable df
  = forallb (fun x => returns (parse_time_to_microseconds x)) (map Mean df)
    && forallb (fun x => returns (parse_memory x)) (map Allocated df).
Proof.
  unfold normalizable. induction df as [|r df IH]; [reflexivity|].
  cbn [forallb map]. rewrite IH.
  destruct (returns (parse_time_to_microseconds (Mean r)));
    destruct (returns (parse_memory (Allocated r)));
    cbn [andb]; try reflexivity.
  now rewrite andb_false_r.
Qed.

Lemma add_columns_returns_iff (df : DataFrame) :
  returns (add_columns df) = normalizable df.
Proof.
  rewrite normalizable_columns, <- !apply_returns_iff.
  unfold add_columns.
  destruct (apply parse_time_to_microseconds (map Mean df)); [|reflexivity].
  cbn [bind returns andb].
  now destruct (apply parse_memory (map Allocated df)).
Qed.

(** X4: the CRUD table is built exactly when every Mean and Allocated
    cell of the three source tables normalises: one cell that raises, in
    any row, compared or not, ends the call with the exception. *)
Theorem crud_table_built_iff (d : data) :
  returns (prepare_crud_comparison_data d) = all_normalizable d.
Proof.
  unfold all_normalizable. rewrite <- !add_columns_returns_iff.
  unfold prepare_crud_comparison_data.
  destruct (add_columns (ef_antes d)); [|reflexivity].
  destruct (add_columns (adonet_antes d)); [|reflexivity].
  now destruct (add_columns (dapper_antes d)).
Qed.

Lemma prepare_crud_inv (d : data) (T : list record) :
  prepare_crud_comparison_data d = Ret T ->
  exists ef adonet dapper,
    T = flat_map (op_records ef adonet dapper) operations.
Proof.
  unfold prepare_crud_comparison_data.
  destruct (add_columns (ef_antes d)) as [ef|]; [|discriminate].
  destruct (add_columns (adonet_antes d)) as [ado|]; [|discriminate].
  destruct (add_columns (dapper_antes d)) as [dap|]; [|discriminate].
  cbn [bind]. intros [= <-]. now exists ef, ado, dap.
Qed.

Lemma first_record_length (op tech : string) (rows : list nrow) :
  List.length (first_record op tech rows) <= 1.
Proof. destruct rows; cbn; lia. Qed.

Lemma first_record_technology (op tech : string) (rows : list nrow)
      (r : record) :
  In r (first_record op tech rows) -> Technology r = tech.
Proof.
  destruct rows; cbn [first_record In]; [intros [] | now intros [<-|[]]].
Qed.

Lemma op_records_names (ef adonet dapper : list nrow) (op : string)
      (r : record) :
  In r (op_records ef adonet dapper op) ->
  exists t, Technology r = tech_name t.
Proof.
  unfold op_records. rewrite !in_app_iff.
  intros [H|[H|H]]; apply first_record_technology in H.
  - now exists EntityFramework.
  - now exists AdoNet.
  - now exists Dapper.
Qed.

Lemma flat_map_length_le {A B : Type} (F : A -> list B) (n : nat)
      (l : list A) :
  (forall a, List.length (F a) <= n) ->
  List.length (flat_map F l) <= n * List.length l.
Proof.
  intros H. induction l as [|a l IH]; cbn [flat_map List.length]; [lia|].
  rewrite length_app. specialize (H a). nia.
Qed.

(** X5: shape of the CRUD table.  Every record is for an operation of the
    fixed list and for one of the three technologies, no pair of an
    operation and a technology has two records, and so the table has 48
    records at most, whatever the size of the source tables. *)
Theorem crud_table_shape (d : data) (T : list record) :
  prepare_crud_comparison_data d = Ret T ->
  Forall (fun r => In (Operation r) operations
                   /\ exists t, Technology r = tech_name t) T
  /\ (forall op t, List.length (filter (for_pair op t) T) <= 1)
  /\ List.length T <= 48.
Proof.
  intros H. apply prepare_crud_inv in H as (ef & ado & dap & ->).
  repeat split.
  - apply Forall_forall. intros r Hr.
    apply in_flat_map in Hr as (op & Hop & Hr).
    split; [|now apply op_records_names in Hr].
    now rewrite (op_records_operation _ _ _ _ _ Hr).
  - intros op t. rewrite filter_pair.
    destruct (in_dec string_dec op operations) as [Hop|Hop].
    + rewrite (filter_flat_map_operation _ _ op
                 (op_records_operation ef ado dap) operations_NoDup Hop).
      rewrite op_records_technology. apply first_record_length.
    + rewrite (filter_none (for_operation op)); [cbn; lia|].
      intros r Hr. apply in_flat_map in Hr as (o & Ho & Hr).
      unfold for_operation.
      rewrite (op_records_operation _ _ _ _ _ Hr).
      apply String.eqb_neq. now intros ->.
  - change 48 with (3 * List.length operations).
    apply flat_map_length_le. intros op. unfold op_records.
    rewrite !length_app.
    pose proof (first_record_length op "Entity Framework" (select op ef)).
    pose proof (first_record_length op "ADO.NET" (select op ado)).
    pose proof (first_record_length op "Dapper" (select op dap)).
    lia.
Qed.

Lemma crud_table_shape_witness :
  exists T, prepare_crud_comparison_data crud_load = Ret T
            /\ List.length T <= 48.
Proof.
  eexists. split; [reflexivity|].
  eapply (crud_table_shape crud_load). reflexivity.
Defined.

End CrudTable.

(** ** The query tables *)

Section QueryTable.

Local Open Scope list_scope.

Lemma prefix_app (s t : string) : prefix s (s ++ t)%string = true.
Proof.
  induction s as [|a s IH]; [apply prefix_nil|].
  cbn [append prefix]. destruct (ascii_dec a a) as [_|N]; [exact IH|].
  now elim N.
Qed.

Lemma replace_scan_skip_exact (old new u v : string) :
  replace_scan old new (u ++ v)%string (String.length u)
  = replace_scan old new v 0.
Proof.
  induction u as [|c u IH]; [reflexivity|].
  cbn [append String.length replace_scan]. exact IH.
Qed.

(** A tag at the head of a text that does not hold it again is the only
    match. *)
Lemma replace_prefix (old rest : string) :
  old <> EmptyString -> contains old rest = false ->
  replace old EmptyString (old ++ rest)%string = rest.
Proof.
  intros Ho Hc. pose proof (replace_no_match old EmptyString rest Ho Hc) as R.
  destruct old as [|a o]; [now elim Ho|].
  unfold replace in *.
  change (String a o ++ rest)%string with (String a (o ++ rest)%string).
  cbn [replace_scan].
  change (String a (o ++ rest)%string) with (String a o ++ rest)%string.
  rewrite prefix_app. cbn [String.length Nat.sub append].
  now rewrite Nat.sub_0_r, replace_scan_skip_exact.
Qed.

Lemma method_tags_colon (tag : string) :
  In tag method_tags -> tag <> EmptyString /\ mem ":" tag = true.
Proof. intros [<-|[<-|[<-|[]]]]; now split. Qed.

(** X6: the method name is recovered from its tagged form.  For a name
    without a colon and without a single quote, the tag of a technology
    followed by the name between single quotes is cleaned to the name. *)
Theorem clean_method_tagged (tag n : string) :
  In tag method_tags ->
  mem ":" n = false ->
  mem "'" n = false ->
  clean_method tag (PyText (tag ++ "'" ++ n ++ "'")) = Done n.
Proof.
  intros Ht Hc Hq. destruct (method_tags_colon tag Ht) as [Hne Hcol].
  cbn [clean_method]. f_equal.
  rewrite replace_prefix; [|exact Hne|].
  - change "'" with (str1 "'") at 1. rewrite replace_char_delete.
    cbn [append delete]. rewrite Ascii.eqb_refl.
    induction n as [|a n IH]; [reflexivity|].
    cbn [mem] in Hc, Hq.
    apply orb_false_iff in Hc as [_ Hc]. apply orb_false_iff in Hq as [Ha Hq].
    cbn [append delete]. rewrite Ha. f_equal. now apply IH.
  - apply (contains_mem ":"); [exact Hcol|].
    rewrite !mem_app, Hc. reflexivity.
Qed.

Lemma clean_method_tagged_witness :
  clean_method "ADO.NET: " (PyText "ADO.NET: 'GetOrderById'")
  = Done "GetOrderById".
Proof.
  apply (clean_method_tagged "ADO.NET: " "GetOrderById").
  - right. left. reflexivity.
  - reflexivity.
  - reflexivity.
Defined.

Lemma add_columns_normalized (df : DataFrame) (ndf : list nrow) :
  add_columns df = Ret ndf -> Forall2 normalized_from df ndf.
Proof.
  intros E. pose proof (add_columns_returns_iff df) as R.
  rewrite E in R. cbn [returns] in R. symmetry in R.
  destruct (add_columns_returns df R) as (ndf' & E' & F).
  rewrite E in E'. now injection E' as <-.
Qed.

Lemma query_rows_from (tag tech : string) (df : DataFrame)
      (ndf : list nrow) (q : list Query.record) :
  Forall2 normalized_from df ndf ->
  query_rows tag tech ndf = Done q ->
  Forall2 (query_from tag tech) df q.
Proof.
  intros F. revert q. induction F as [|r n df ndf (Hs & Ht & Hm) _ IH];
    intros q; cbn [query_rows].
  - intros [= <-]. constructor.
  - rewrite Hs.
    destruct (clean_method tag (Method r)) as [m|] eqn:M; [|discriminate].
    cbn [obind].
    destruct (query_rows tag tech ndf) as [rest|]; [|discriminate].
    cbn [obind]. intros [= <-].
    constructor; [|now apply IH].
    now repeat split.
Qed.

Lemma query_rows_finishes (tag tech : string) (df : DataFrame)
      (ndf : list nrow) :
  Forall2 normalized_from df ndf ->
  (finishes (query_rows tag tech ndf) = methods_present df)
  /\ (methods_present df = false ->
      query_rows tag tech ndf = Failed AttributeError).
Proof.
  induction 1 as [|r n df ndf (Hs & _) _ [IH1 IH2]]; [now split|].
  cbn [query_rows methods_present forallb]. rewrite Hs.
  fold (methods_present df).
  destruct (Method r) as [| |m]; cbn [clean_method obind isna negb andb];
    try (split; reflexivity).
  destruct (query_rows tag tech ndf) as [rest|f]; cbn [obind finishes] in *.
  - split; [exact IH1|]. intros H. rewrite <- IH1 in H. discriminate H.
  - split; [exact IH1|]. intros H. now apply IH2.
Qed.

Lemma query_table_inv (d : data) (Q : list Query.record) :
  prepare_query_comparison_data d = Done Q ->
  exists q1 q2 q3,
    Q = q1 ++ q2 ++ q3
    /\ Forall2 (query_from "EF: " "Entity Framework") (ef_despues d) q1
    /\ Forall2 (query_from "ADO.NET: " "ADO.NET") (adonet_despues d) q2
    /\ Forall2 (query_from "Dapper: " "Dapper") (dapper_despues d) q3
    /\ List.length Q
       = List.length (ef_despues d) + List.length (adonet_despues d)
         + List.length (dapper_despues d).
Proof.
  unfold prepare_query_comparison_data.
  destruct (add_columns (ef_despues d)) as [ef|] eqn:E1; [|discriminate].
  cbn [lift obind].
  destruct (query_rows "EF: " "Entity Framework" ef) as [q1|] eqn:Q1;
    [|discriminate].
  cbn [obind].
  destruct (add_columns (adonet_despues d)) as [ado|] eqn:E2; [|discriminate].
  cbn [lift obind].
  destruct (query_rows "ADO.NET: " "ADO.NET" ado) as [q2|] eqn:Q2;
    [|discriminate].
  cbn [obind].
  destruct (add_columns (dapper_despues d)) as [dap|] eqn:E3; [|discriminate].
  cbn [lift obind].
  destruct (query_rows "Dapper: " "Dapper" dap) as [q3|] eqn:Q3;
    [|discriminate].
  cbn [obind]. intros [= <-].
  pose proof (query_rows_from _ _ _ _ _ (add_columns_normalized _ _ E1) Q1) as F1.
  pose proof (query_rows_from _ _ _ _ _ (add_columns_normalized _ _ E2) Q2) as F2.
  pose proof (query_rows_from _ _ _ _ _ (add_columns_normalized _ _ E3) Q3) as F3.
  exists q1, q2, q3. repeat split; try assumption.
  rewrite !length_app.
  rewrite (Forall2_length F1), (Forall2_length F2), (Forall2_length F3).
  lia.
Qed.

(** X7: the query table keeps every row.  When it is built, it is the
    records of the three query reports in the order Entity Framework,
    ADO.NET, Dapper, one record for each source row in the order of the
    rows, with the cleaned method, the label of the technology, the
    period and the two normalised measures of that row. *)
Theorem query_table_rows (d : data) (Q : list Query.record) :
  prepare_query_comparison_data d = Done Q ->
  exists q1 q2 q3,
    Q = q1 ++ q2 ++ q3
    /\ Forall2 (query_from "EF: " "Entity Framework") (ef_despues d) q1
    /\ Forall2 (query_from "ADO.NET: " "ADO.NET") (adonet_despues d) q2
    /\ Forall2 (query_from "Dapper: " "Dapper") (dapper_despues d) q3
    /\ List.length Q
       = List.length (ef_despues d) + List.length (adonet_despues d)
         + List.length (dapper_despues d).
Proof. exact (query_table_inv d Q). Qed.

Lemma query_table_rows_witness :
  exists Q, prepare_query_comparison_data query_load = Done Q
            /\ List.length Q = 2.
Proof.
  eexists. split; [reflexivity|].
  destruct (query_table_rows query_load _ eq_refl)
    as (q1 & q2 & q3 & _ & _ & _ & _ & L).
  exact L.
Defined.

(** X8: the query table is built exactly when every cell of the three
    query reports normalises and every Method is text; with normalisable
    cells, a Method left empty in any of the reports ends the call with
    [AttributeError]. *)
Theorem query_table_built_iff (d : data) :
  finishes (prepare_query_comparison_data d)
  = despues_normalizable d && despues_methods_present d
  /\ (despues_normalizable d = true ->
      despues_methods_present d = false ->
      prepare_query_comparison_data d = Failed AttributeError).
Proof.
  unfold despues_normalizable, despues_methods_present,
    prepare_query_comparison_data.
  rewrite <- !add_columns_returns_iff.
  destruct (add_columns (ef_despues d)) as [ef|] eqn:E1;
    [|split; [reflexivity | discriminate]].
  destruct (add_columns (adonet_despues d)) as [ado|] eqn:E2.
  2:{ cbn [lift obind returns andb]. split; [|discriminate].
      destruct (query_rows "EF: " "Entity Framework" ef); reflexivity. }
  destruct (add_columns (dapper_despues d)) as [dap|] eqn:E3.
  2:{ cbn [lift obind returns andb]. split; [|discriminate].
      destruct (query_rows "EF: " "Entity Framework" ef); [|reflexivity].
      cbn [obind].
      destruct (query_rows "ADO.NET: " "ADO.NET" ado); reflexivity. }
  cbn [lift obind returns andb].
  destruct (query_rows_finishes "EF: " "Entity Framework" _ _
              (add_columns_normalized _ _ E1)) as [A1 B1].
  destruct (query_rows_finishes "ADO.NET: " "ADO.NET" _ _
              (add_columns_normalized _ _ E2)) as [A2 B2].
  destruct (query_rows_finishes "Dapper: " "Dapper" _ _
              (add_columns_normalized _ _ E3)) as [A3 B3].
  rewrite <- A1, <- A2, <- A3.
  destruct (methods_present (ef_despues d)).
  - destruct (query_rows "EF: " "Entity Framework" ef) as [q1|];
      [|discriminate A1].
    cbn [obind finishes andb].
    destruct (methods_present (adonet_despues d)).
    + destruct (query_rows "ADO.NET: " "ADO.NET" ado) as [q2|];
        [|discriminate A2].
      cbn [obind finishes andb].
      destruct (methods_present (dapper_despues d)).
      * destruct (query_rows "Dapper: " "Dapper" dap) as [q3|];
          [|discriminate A3].
        split; [reflexivity | discriminate].
      * rewrite (B3 eq_refl). split; reflexivity.
    + rewrite (B2 eq_refl). split; reflexivity.
  - rewrite (B1 eq_refl). split; reflexivity.
Qed.

Lemma query_table_built_iff_witness :
  prepare_query_comparison_data unnamed_load = Failed AttributeError.
Proof.
  exact (proj2 (query_table_built_iff unnamed_load) eq_refl eq_refl).
Defined.

End QueryTable.

(** ** The combined table *)

Section CombinedTable.

Local Open Scope list_scope.

Lemma first_antes_record_map (op tech : string) (rows : list nrow) :
  first_antes_record op tech rows = map antes (first_record op tech rows).
Proof. now destruct rows. Qed.

Lemma antes_records_map (ef adonet dapper : list nrow) (op : string) :
  antes_records ef adonet dapper op
  = map antes (op_records ef adonet dapper op).
Proof.
  unfold antes_records, op_records.
  now rewrite !map_app, !first_antes_record_map.
Qed.

Lemma flat_map_antes (ef adonet dapper : list nrow) (ops : list string) :
  flat_map (antes_records ef adonet dapper) ops
  = map antes (flat_map (op_records ef adonet dapper) ops).
Proof.
  induction ops as [|op ops IH]; [reflexivity|].
  cbn [flat_map]. now rewrite map_app, antes_records_map, IH.
Qed.

Lemma despues_rows_map (tag tech : string) (frame : list nrow) :
  despues_rows tag tech frame
  = match query_rows tag tech frame with
    | Done q => Done (map despues q)
    | Failed f => Failed f
    end.
Proof.
  induction frame as [|n frame IH]; [reflexivity|].
  cbn [despues_rows query_rows].
  destruct (clean_method tag (Method (src n))) as [m|]; [|reflexivity].
  cbn [obind]. rewrite IH.
  now destruct (query_rows tag tech frame).
Qed.

Ltac no_table :=
  split;
  [ discriminate
  | let C := fresh "C" in
    let Q := fresh "Q" in
    let HC := fresh "HC" in
    let HQ := fresh "HQ" in
    intros (C & Q & HC & HQ & _);
    cbn [bind obind lift] in HC, HQ;
    try discriminate HC;
    repeat match type of HQ with
           | context [query_rows ?a ?b ?c] =>
               destruct (query_rows a b c); cbn [bind obind lift] in HQ
           end;
    discriminate HQ ].

Lemma combined_table_iff (d : data) (T : list All.record) :
  prepare_antes_despues_comparison_data d = Done T
  <-> exists C Q,
        prepare_crud_comparison_data d = Ret C
        /\ prepare_query_comparison_data d = Done Q
        /\ T = map antes C ++ map despues Q.
Proof.
  unfold prepare_antes_despues_comparison_data,
    prepare_crud_comparison_data, prepare_query_comparison_data.
  destruct (add_columns (ef_antes d)) as [efa|];
    cbn [bind obind lift]; [|no_table].
  destruct (add_columns (adonet_antes d)) as [adoa|];
    cbn [bind obind lift]; [|no_table].
  destruct (add_columns (dapper_antes d)) as [dapa|];
    cbn [bind obind lift]; [|no_table].
  destruct (add_columns (ef_despues d)) as [ef|];
    cbn [bind obind lift]; [|no_table].
  destruct (add_columns (adonet_despues d)) as [ado|];
    cbn [bind obind lift]; [|no_table].
  destruct (add_columns (dapper_despues d)) as [dap|];
    cbn [bind obind lift]; [|no_table].
  rewrite !despues_rows_map.
  destruct (query_rows "EF: " "Entity Framework" ef) as [q1|];
    cbn [bind obind lift]; [|no_table].
  destruct (query_rows "ADO.NET: " "ADO.NET" ado) as [q2|];
    cbn [bind obind lift]; [|no_table].
  destruct (query_rows "Dapper: " "Dapper" dap) as [q3|];
    cbn [bind obind lift]; [|no_table].
  rewrite flat_map_antes. split.
  - intros [= <-].
    exists (flat_map (op_records efa adoa dapa) operations), (q1 ++ q2 ++ q3).
    do 2 (split; [reflexivity|]).
    now rewrite (map_app despues q1), (map_app despues q2).
  - intros (C & Q & [= <-] & [= <-] & ->).
    now rewrite (map_app despues q1), (map_app despues q2).
Qed.

(** X9: the combined table is the CRUD table followed by the query table.
    It is built exactly when both are, and then holds the CRUD records
    with the period Antes and the category CRUD, followed by the query
    records with the category Query, in the same order. *)
Theorem combined_table_composition (d : data) (T : list All.record) :
  prepare_antes_despues_comparison_data d = Done T
  <-> exists C Q,
        prepare_crud_comparison_data d = Ret C
        /\ prepare_query_comparison_data d = Done Q
        /\ T = map antes C ++ map despues Q.
Proof. exact (combined_table_iff d T). Qed.

Lemma combined_table_composition_witness :
  exists T, prepare_antes_despues_comparison_data query_load = Done T
            /\ List.length T = 3.
Proof.
  eexists. split; [|shelve].
  apply (proj2 (combined_table_composition query_load _)).
  do 2 eexists. do 2 (split; [reflexivity|]). reflexivity.
  Unshelve. reflexivity.
Defined.

End CombinedTable.

(** ** What the charts read *)

Section Charts.

Local Open Scope list_scope.

Lemma query_from_period (tag tech : string) (df : DataFrame)
      (q : list Query.record) :
  Forall2 (query_from tag tech) df q ->
  Forall (fun r => Query.Period r = "Después") q.
Proof.
  induction 1 as [|r x df q (_ & _ & Hp & _) _ IH]; constructor; assumption.
Qed.

Lemma period_antes (C : list record) (p : string) :
  period_rows p (map antes C)
  = if "Antes" =? p then map antes C else [].
Proof.
  unfold period_rows. destruct ("Antes" =? p) eqn:E.
  - apply filter_all. intros r Hr.
    apply in_map_iff in Hr as (c & <- & _). exact E.
  - apply filter_none. intros r Hr.
    apply in_map_iff in Hr as (c & <- & _). exact E.
Qed.

Lemma period_despues (Q : list Query.record) (p : string) :
  Forall (fun r => Query.Period r = "Después") Q ->
  period_rows p (map despues Q)
  = if "Después" =? p then map despues Q else [].
Proof.
  intros H. rewrite Forall_forall in H.
  unfold period_rows. destruct ("Después" =? p) eqn:E.
  - apply filter_all. intros r Hr.
    apply in_map_iff in Hr as (c & <- & Hc).
    cbn [despues All.Period]. now rewrite (H c Hc).
  - apply filter_none. intros r Hr.
    apply in_map_iff in Hr as (c & <- & Hc).
    cbn [despues All.Period]. now rewrite (H c Hc).
Qed.

Lemma period_data_rows (p : string) (T : list All.record) :
  T <> [] -> period_data p T = Rows (period_rows p T).
Proof. destruct T; [now intros N | reflexivity]. Qed.

(** X10: the split of the combined table by period, the first step of the
    charts.  On an empty table the look-up of the column raises
    [KeyError]; on a table with a record it gives back the two tables: the
    rows of the period Antes are the CRUD table, those of the period
    Después are the query table, and no row is outside the two. *)
Theorem period_split (d : data) (T : list All.record) :
  prepare_antes_despues_comparison_data d = Done T ->
  (T = [] -> forall p, period_data p T = KeyError)
  /\ (T <> [] ->
      exists C Q,
        prepare_crud_comparison_data d = Ret C
        /\ prepare_query_comparison_data d = Done Q
        /\ period_data "Antes" T = Rows (map antes C)
        /\ period_data "Después" T = Rows (map despues Q)
        /\ T = map antes C ++ map despues Q).
Proof.
  intros H. split; [now intros -> p|]. intros N.
  rewrite !(period_data_rows _ T N).
  apply combined_table_iff in H as (C & Q & HC & HQ & ->).
  exists C, Q. do 2 (split; [assumption|]).
  destruct (query_table_inv d Q HQ) as (q1 & q2 & q3 & -> & F1 & F2 & F3 & _).
  assert (Forall (fun r => Query.Period r = "Después") (q1 ++ q2 ++ q3)) as P.
  { rewrite !Forall_app. repeat split; eapply query_from_period; eassumption. }
  unfold period_rows at 1 2.
  rewrite !filter_app.
  fold (period_rows "Antes" (map antes C)).
  fold (period_rows "Después" (map antes C)).
  fold (period_rows "Antes" (map despues (q1 ++ q2 ++ q3))).
  fold (period_rows "Después" (map despues (q1 ++ q2 ++ q3))).
  rewrite !period_antes, !(period_despues _ _ P).
  cbn [String.eqb Ascii.eqb Bool.eqb app].
  now rewrite !app_nil_r.
Qed.

Lemma period_split_witness :
  (exists T C Q,
     prepare_antes_despues_comparison_data query_load = Done T
     /\ period_data "Antes" T = Rows (map antes C)
     /\ period_data "Después" T = Rows (map despues Q))
  /\ prepare_antes_despues_comparison_data unlisted_load = Done []
  /\ period_data "Antes" [] = KeyError.
Proof.
  split; [|split; [reflexivity|]].
  - eexists.
    destruct (period_split query_load _ eq_refl) as [_ H].
    destruct H as (C & Q & _ & _ & HA & HD & _); [discriminate|].
    exists C, Q. split; [reflexivity|]. split; [exact HA | exact HD].
  - exact (proj1 (period_split unlisted_load [] eq_refl) eq_refl "Antes").
Defined.

(** X11: on the CRUD table, the operation type of the analysis by type is
    never Query: the type of every record is Create, Read, Update or
    Delete, and it is the verb its operation name starts with. *)
Theorem crud_operation_types (d : data) (T : list record) :
  prepare_crud_comparison_data d = Ret T ->
  Forall (fun r =>
            In (operation_type (Operation r))
               ["Create"; "Read"; "Update"; "Delete"]
            /\ prefix (operation_type (Operation r)) (Operation r) = true)
         T.
Proof.
  intros H. apply prepare_crud_inv in H as (ef & ado & dap & ->).
  apply Forall_forall. intros r Hr.
  apply in_flat_map in Hr as (op & Hop & Hr).
  rewrite (op_records_operation _ _ _ _ _ Hr).
  unfold operations in Hop. cbn [In] in Hop.
  repeat (destruct Hop as [<-|Hop];
          [split; [vm_compute; tauto | reflexivity]|]).
  destruct Hop.
Qed.

Lemma crud_operation_types_witness :
  exists T,
    prepare_crud_comparison_data crud_load = Ret T
    /\ Forall (fun r =>
                 In (operation_type (Operation r))
                    ["Create"; "Read"; "Update"; "Delete"]
                 /\ prefix (operation_type (Operation r)) (Operation r)
                    = true)
              T.
Proof.
  eexists. split; [reflexivity|].
  apply (crud_operation_types crud_load). reflexivity.
Defined.

End Charts.
